(** * Dashboard.py: extraction and aggregation of fiscal XML line items

    A shallow embedding of the extraction-and-aggregation core of
    [Dashboard.py]: the helper [get_xml_text], the per-document extractor
    [parse_xml_base], the batch loop [processar_diretorio_xml] and the
    per-product summary [criar_resumo_produto].

    Python values are modelled as follows.
    - [str] is [string]; a text is read as its UTF-8 bytes, whose
      lexicographic order is the code-point order Python compares by.
    - [None]-or-value is [option].
    - [float] is [spec_float] at binary64 ([prec = 53], [emax = 1024]),
      the IEEE 754 specification type of the standard library.
    - code that can raise runs in the error monad [exc]; a [try]/[except]
      is [catch].
    - an lxml element is a tag in Clark form (namespace URI and local
      name), its leading text and its child elements in document order. *)

From Stdlib Require Import List String Ascii ZArith Bool Lia PeanoNat.
From Stdlib Require Import Floats.SpecFloat Sorting.Sorted Sorting.Permutation.
Import ListNotations.

Open Scope string_scope.

(** ** Exceptions *)

Inductive exn : Type :=
| XMLSyntaxError   (* lxml: malformed markup *)
| OSError          (* the file cannot be read *)
| SyntaxError      (* ElementPath: unusable path or prefix *)
| ValueError
| TypeError.

Inductive exc (A : Type) : Type :=
| Ret (a : A)
| Raise (e : exn).

Arguments Ret {A} a.
Arguments Raise {A} e.

Definition bind {A B : Type} (m : exc A) (k : A -> exc B) : exc B :=
  match m with
  | Ret a => k a
  | Raise e => Raise e
  end.

Notation "x <- m ;; k" := (bind m (fun x => k))
  (at level 61, m at next level, right associativity).

(** [try: m except handler]. *)
Definition catch {A : Type} (m : exc A) (handler : exn -> exc A) : exc A :=
  match m with
  | Ret a => Ret a
  | Raise e => handler e
  end.

Definition raises {A : Type} (m : exc A) : Prop :=
  exists e, m = Raise e.

(** ** Truthiness of [str]-or-[None] values *)

Definition truthy (v : option string) : bool :=
  match v with
  | None => false
  | Some s => negb (s =? "")
  end.

(** ** The element tree *)

Record qname : Type := QName {
  q_ns : option string;    (* namespace URI, [None] when unqualified *)
  q_local : string
}.

Definition option_eqb (a b : option string) : bool :=
  match a, b with
  | None, None => true
  | Some x, Some y => x =? y
  | _, _ => false
  end.

Definition qname_eqb (a b : qname) : bool :=
  option_eqb (q_ns a) (q_ns b) && (q_local a =? q_local b).

#[local] Unset Elimination Schemes.
Inductive element : Type :=
| Element (tag : qname) (text : option string) (children : list element).
#[local] Set Elimination Schemes.

Definition tag (e : element) : qname :=
  match e with Element t _ _ => t end.

Definition text (e : element) : option string :=
  match e with Element _ x _ => x end.

Definition children (e : element) : list element :=
  match e with Element _ _ cs => cs end.

(** [elem.iterdescendants()]: the proper descendants in document order. *)
Fixpoint iterdescendants (e : element) : list element :=
  match e with
  | Element _ _ cs => flat_map (fun c => c :: iterdescendants c) cs
  end.

(** ** ElementPath

    The program uses two shapes of path only: ['./name'] (a child) and
    ['.//name'] (a proper descendant), where [name] is either bare or
    carries a prefix, as in ['./ns:prod']. *)

Inductive xpath : Type :=
| child (prefix : option string) (name : string)
| descendant (prefix : option string) (name : string).

(** A [namespaces] argument: [None], or a dict from prefix to URI in
    which the key [""] is the default namespace. *)
Definition nsmap : Type := list (string * string).

Fixpoint dict_get (k : string) (d : nsmap) : option string :=
  match d with
  | [] => None
  | (k', v) :: d' => if k' =? k then Some v else dict_get k d'
  end.

(** ["{uri}name"]; an empty URI denotes the unqualified name. *)
Definition clark (uri name : string) : qname :=
  QName (if uri =? "" then None else Some uri) name.

(** The tokenizer's treatment of a name: a prefix must be bound by the
    map, a bare name takes the default namespace when there is one. *)
Definition resolve (prefix : option string) (name : string)
    (namespaces : option nsmap) : exc qname :=
  match prefix with
  | Some p =>
      match namespaces with
      | None | Some [] => Raise SyntaxError
      | Some d =>
          match dict_get p d with
          | Some uri => Ret (clark uri name)
          | None => Raise SyntaxError
          end
      end
  | None =>
      match namespaces with
      | None | Some [] => Ret (QName None name)
      | Some d =>
          match dict_get "" d with
          | Some uri => Ret (clark uri name)
          | None => Ret (QName None name)
          end
      end
  end.

Definition select (e : element) (p : xpath) : list element :=
  match p with
  | child _ _ => children e
  | descendant _ _ => iterdescendants e
  end.

Definition findall (e : element) (p : xpath) (namespaces : option nsmap)
    : exc (list element) :=
  let '(prefix, name) :=
    match p with child q n | descendant q n => (q, n) end in
  t <- resolve prefix name namespaces ;;
  Ret (filter (fun c => qname_eqb (tag c) t) (select e p)).

Definition find (e : element) (p : xpath) (namespaces : option nsmap)
    : exc (option element) :=
  l <- findall e p namespaces ;;
  Ret (hd_error l).

(** ** [get_xml_text] *)

Definition get_xml_text (element : option element) (p : xpath)
    (namespaces : option nsmap) : exc (option string) :=
  match element with
  | None => Ret None
  | Some e =>
      found <- find e p namespaces ;;
      Ret (match found with
           | Some f => text f
           | None => None
           end)
  end.

(** ** [float(text)]

    The built-in conversion of a [str]: surrounding white space is
    dropped, underscores are accepted between digits, a sign may lead, and
    what follows is [inf], [infinity] or [nan] in any letter case, or a
    decimal numeral with an optional exponent.  The numeral is rounded to
    the nearest binary64, ties to even.  Anything else is a [ValueError].

    A text with characters outside ASCII is first rewritten: a Unicode
    white space becomes a space, a Unicode decimal digit becomes the
    ASCII digit of its value, and the text is cut at the first other
    character outside ASCII, which is left as a question mark.  The
    tables are those of Unicode 14.0. *)

Definition float : Type := spec_float.

Definition prec : Z := 53.
Definition emax : Z := 1024.

Definition fzero : float := S754_zero false.          (* 0.0 *)
Definition fmul : float -> float -> float := SFmul prec emax.
Definition fadd : float -> float -> float := SFadd prec emax.
Definition fdiv : float -> float -> float := SFdiv prec emax.

Definition is_nan (x : float) : bool :=
  match x with S754_nan => true | _ => false end.

Definition is_finite (x : float) : bool :=
  match x with S754_zero _ | S754_finite _ _ _ => true | _ => false end.

(** [x >= 0.0] as Python evaluates it. *)
Definition nonneg (x : float) : bool := SFleb fzero x.

Definition is_space (c : ascii) : bool :=
  let n := nat_of_ascii c in
  (((9 <=? n) && (n <=? 13)) || (n =? 32))%nat.

Definition is_digit (c : ascii) : bool :=
  let n := nat_of_ascii c in
  ((48 <=? n) && (n <=? 57))%nat.

Definition digit_val (c : ascii) : Z := Z.of_nat (nat_of_ascii c - 48).

Definition lower (c : ascii) : ascii :=
  let n := nat_of_ascii c in
  if ((65 <=? n) && (n <=? 90))%nat then ascii_of_nat (n + 32) else c.

Fixpoint lstrip (l : list ascii) : list ascii :=
  match l with
  | c :: l' => if is_space c then lstrip l' else l
  | [] => []
  end.

Definition strip (l : list ascii) : list ascii :=
  rev (lstrip (rev (lstrip l))).

(** Underscores are allowed only between two digits; they are removed. *)
Fixpoint drop_underscores (prev : option ascii) (l : list ascii)
    : option (list ascii) :=
  match l with
  | [] =>
      match prev with
      | Some "_"%char => None
      | _ => Some []
      end
  | c :: l' =>
      if Ascii.eqb c "_" then
        match prev with
        | Some d => if is_digit d then drop_underscores (Some c) l' else None
        | None => None
        end
      else
        let ok :=
          match prev with
          | Some "_"%char => is_digit c
          | _ => true
          end in
        if ok then option_map (cons c) (drop_underscores (Some c) l')
        else None
  end.

(** The code points of a text held as UTF-8 bytes.  A byte sequence that
    is not UTF-8 cannot come from a [str]; it is read as a code point
    beyond the Unicode range. *)
Definition not_a_char : N := 1114112.

Definition continuation (b : ascii) : option N :=
  let n := N_of_ascii b in
  if ((128 <=? n) && (n <? 192))%N then Some (n - 128)%N else None.

Fixpoint utf8_decode (l : list ascii) : list N :=
  match l with
  | [] => []
  | b0 :: l1 =>
      let n0 := N_of_ascii b0 in
      if (n0 <? 128)%N then n0 :: utf8_decode l1
      else if ((192 <=? n0) && (n0 <? 224))%N then
        match l1 with
        | b1 :: l2 =>
            match continuation b1 with
            | Some c1 => ((n0 - 192) * 64 + c1)%N :: utf8_decode l2
            | None => not_a_char :: utf8_decode l1
            end
        | [] => [not_a_char]
        end
      else if ((224 <=? n0) && (n0 <? 240))%N then
        match l1 with
        | b1 :: b2 :: l3 =>
            match continuation b1, continuation b2 with
            | Some c1, Some c2 =>
                ((n0 - 224) * 4096 + c1 * 64 + c2)%N :: utf8_decode l3
            | _, _ => not_a_char :: utf8_decode l1
            end
        | _ => [not_a_char]
        end
      else if ((240 <=? n0) && (n0 <? 248))%N then
        match l1 with
        | b1 :: b2 :: b3 :: l4 =>
            match continuation b1, continuation b2, continuation b3 with
            | Some c1, Some c2, Some c3 =>
                ((n0 - 240) * 262144 + c1 * 4096 + c2 * 64 + c3)%N
                :: utf8_decode l4
            | _, _, _ => not_a_char :: utf8_decode l1
            end
        | _ => [not_a_char]
        end
      else not_a_char :: utf8_decode l1
  end.

(** [str.isspace] beyond ASCII: U+0085, U+00A0, U+1680, U+2000 to U+200A,
    U+2028, U+2029, U+202F, U+205F and U+3000. *)
Definition is_unicode_space (c : N) : bool :=
  ((c =? 133) || (c =? 160) || (c =? 5760) ||
   ((8192 <=? c) && (c <=? 8202)) ||
   (c =? 8232) || (c =? 8233) || (c =? 8239) || (c =? 8287) ||
   (c =? 12288))%N.

(** The first code point of each run of ten decimal digits beyond ASCII
    (Arabic-Indic U+0660, Extended Arabic-Indic U+06F0, NKo U+07C0,
    Devanagari U+0966, ..., Segmented U+1FBF0). *)
Definition decimal_runs : list N :=
  [
    1632; 1776; 1984; 2406; 2534; 2662; 2790; 2918; 3046; 3174; 3302;
    3430; 3558; 3664; 3792; 3872; 4160; 4240; 6112; 6160; 6470; 6608;
    6784; 6800; 6992; 7088; 7232; 7248; 42528; 43216; 43264; 43472; 43504;
    43600; 44016; 65296; 66720; 68912; 69734; 69872; 69942; 70096; 70384;
    70736; 70864; 71248; 71360; 71472; 71904; 72016; 72784; 73040; 73120;
    92768; 92864; 93008; 120782; 120792; 120802; 120812; 120822; 123200;
    123632; 125264; 130032
  ]%N.

(** [unicodedata.decimal] beyond ASCII. *)
Definition unicode_decimal (c : N) : option N :=
  match List.find (fun s => ((s <=? c) && (c <? s + 10))%N) decimal_runs with
  | Some s => Some (c - s)%N
  | None => None
  end.

Fixpoint transform (cs : list N) : list ascii :=
  match cs with
  | [] => []
  | c :: cs' =>
      if (c <? 127)%N then ascii_of_N c :: transform cs'
      else if is_unicode_space c then " "%char :: transform cs'
      else
        match unicode_decimal c with
        | Some d => ascii_of_N (48 + d) :: transform cs'
        | None => ["?"%char]
        end
  end.

(** The text as [float] reads it: unchanged when it is ASCII. *)
Definition to_ascii (s : string) : list ascii :=
  let l := list_ascii_of_string s in
  if forallb (fun b => (N_of_ascii b <? 128)%N) l then l
  else transform (utf8_decode l).

Definition read_sign (l : list ascii) : bool * list ascii :=
  match l with
  | "-"%char :: l' => (true, l')
  | "+"%char :: l' => (false, l')
  | _ => (false, l)
  end.

Fixpoint read_digits (l : list ascii) : list ascii * list ascii :=
  match l with
  | c :: l' =>
      if is_digit c then
        let '(ds, rest) := read_digits l' in (c :: ds, rest)
      else ([], l)
  | [] => ([], [])
  end.

Definition digits_val (ds : list ascii) : Z :=
  fold_left (fun acc c => 10 * acc + digit_val c)%Z ds 0%Z.

(** The binary64 nearest to [m * 10 ^ e10], for [0 <= m]. *)
Definition decimal_to_float (m e10 : Z) : float :=
  match m with
  | Z0 => S754_zero false
  | _ =>
      if (0 <=? e10)%Z then
        binary_normalize prec emax (m * 10 ^ e10) 0 false
      else
        let '(q, e, l) :=
          SFdiv_core_binary prec emax m 0 (10 ^ (- e10)) 0 in
        binary_round_aux prec emax false q e l
  end.

Definition read_exponent (l : list ascii) : Z * list ascii :=
  match l with
  | c :: l' =>
      if Ascii.eqb (lower c) "e" then
        let '(neg, l1) := read_sign l' in
        let '(ds, l2) := read_digits l1 in
        match ds with
        | [] => (0%Z, l)            (* no exponent: the letter is not read *)
        | _ => ((if neg then - digits_val ds else digits_val ds)%Z, l2)
        end
      else (0%Z, l)
  | [] => (0%Z, [])
  end.

Definition read_unsigned (l : list ascii) : option float :=
  let word := string_of_list_ascii (map lower l) in
  if (word =? "inf") || (word =? "infinity") then Some (S754_infinity false)
  else if word =? "nan" then Some S754_nan
  else
    let '(ip, l1) := read_digits l in
    let '(fp, l2) :=
      match l1 with
      | "."%char :: l1' => read_digits l1'
      | _ => ([], l1)
      end in
    match (ip ++ fp)%list with
    | [] => None
    | ds =>
        let '(ex, l3) := read_exponent l2 in
        match l3 with
        | [] => Some (decimal_to_float (digits_val ds)
                        (ex - Z.of_nat (List.length fp)))
        | _ => None
        end
    end.

Definition py_float (s : string) : exc float :=
  match drop_underscores None (strip (to_ascii s)) with
  | None => Raise ValueError
  | Some l =>
      let '(neg, l') := read_sign l in
      match read_unsigned l' with
      | Some x => Ret (if neg then SFopp x else x)
      | None => Raise ValueError
      end
  end.

(** [float(x)] for [x] a [str] or [None]. *)
Definition py_float_arg (x : option string) : exc float :=
  match x with
  | Some s => py_float s
  | None => Raise TypeError
  end.

(** ** [parse_xml_base] *)

(** One extracted line, the dict [item]. *)
Record item : Type := Item {
  arquivo_origem : string;
  data_hora_emissao : option string;
  tipo_documento : string;
  codigo_produto : option string;
  nome_produto : option string;
  NCM : option string;
  CFOP : option string;
  codigo_barras : option string;
  quantidade : float;
  valor_unitario : float;
  valor_total_item : float
}.

(** A file on disk: its name and what [ET.parse(xml_file).getroot()]
    gives, a root element or an exception. *)
Record xml_file : Type := XmlFile {
  basename : string;
  parsed : exc element
}.

Definition nfe : string := "http://www.portalfiscal.inf.br/nfe".

Definition ns : nsmap := [("ns", nfe)].

(** [get_xml_text(prod, './ns:NAME', ns) or get_xml_text(prod, './NAME', None)] *)
Definition prod_text (prod_element : element) (name : string)
    : exc (option string) :=
  a <- get_xml_text (Some prod_element) (child (Some "ns") name) (Some ns) ;;
  if truthy a then Ret a
  else get_xml_text (Some prod_element) (child None name) None.

(** [try: float(text) if text else 0.0 / except (ValueError, TypeError): 0.0] *)
Definition float_or_zero (text : option string) : exc float :=
  catch (if truthy text then py_float_arg text else Ret fzero)
        (fun e =>
           match e with
           | ValueError | TypeError => Ret fzero
           | _ => Raise e
           end).

(** Lines 39-46: the emission time stamp of the document. *)
Definition read_dh_emi (root : element) : exc (option string) :=
  ide_element <- find root (descendant (Some "ns") "ide") (Some ns) ;;
  match ide_element with
  | Some _ => get_xml_text ide_element (child (Some "ns") "dhEmi") (Some ns)
  | None =>
      probe <- find root (descendant None "ide") None ;;
      match probe with
      | Some _ =>
          ide_element <- find root (descendant None "ide") None ;;
          get_xml_text ide_element (child None "dhEmi") None
      | None => Ret None
      end
  end.

(** Lines 50-52: the item elements. *)
Definition read_det_elements (root : element) : exc (list element) :=
  det_elements <- findall root (descendant (Some "ns") "det") (Some ns) ;;
  match det_elements with
  | [] => findall root (descendant None "det") None
  | _ => Ret det_elements
  end.

(** Lines 61-65: the product element of an item element. *)
Definition read_prod_element (det : element) : exc (option element) :=
  prod_element <- find det (child (Some "ns") "prod") (Some ns) ;;
  match prod_element with
  | None => find det (child None "prod") None
  | Some _ => Ret prod_element
  end.

(** Lines 55-101, one turn of the loop: [None] when the turn appends
    nothing ([continue], or the final test fails). *)
Definition loop_body (xml_file : xml_file) (tipo_doc : string)
    (dh_emi : option string) (det : element) : exc (option item) :=
  prod_element <- read_prod_element det ;;
  match prod_element with
  | None => Ret None
  | Some prod_element =>
      codigo <- prod_text prod_element "cProd" ;;
      nome <- prod_text prod_element "xProd" ;;
      ncm <- prod_text prod_element "NCM" ;;
      cfop <- prod_text prod_element "CFOP" ;;
      cean <- prod_text prod_element "cEAN" ;;
      qcom_text <- prod_text prod_element "qCom" ;;
      vuncom_text <- prod_text prod_element "vUnCom" ;;
      qtd <- float_or_zero qcom_text ;;
      vun <- float_or_zero vuncom_text ;;
      let item :=
        {| arquivo_origem := basename xml_file;
           data_hora_emissao := dh_emi;
           tipo_documento := tipo_doc;
           codigo_produto := codigo;
           nome_produto := nome;
           NCM := ncm;
           CFOP := cfop;
           codigo_barras := cean;
           quantidade := qtd;
           valor_unitario := vun;
           valor_total_item := fmul qtd vun |} in
      if truthy (codigo_produto item) || truthy (nome_produto item)
      then Ret (Some item)
      else Ret None
  end.

Fixpoint for_det (xml_file : xml_file) (tipo_doc : string)
    (dh_emi : option string) (det_elements : list element)
    (itens : list item) : exc (list item) :=
  match det_elements with
  | [] => Ret itens
  | det :: rest =>
      r <- loop_body xml_file tipo_doc dh_emi det ;;
      for_det xml_file tipo_doc dh_emi rest
        (match r with
         | Some item => (itens ++ [item])%list
         | None => itens
         end)
  end.

(** The body of the [try]. *)
Definition parse_xml_base_try (xml_file : xml_file) (tipo_doc : string)
    : exc (list item) :=
  root <- parsed xml_file ;;
  dh_emi <- read_dh_emi root ;;
  det_elements <- read_det_elements root ;;
  for_det xml_file tipo_doc dh_emi det_elements [].

Definition parse_xml_base (xml_file : xml_file) (tipo_doc : string)
    : exc (list item) :=
  catch (parse_xml_base_try xml_file tipo_doc)
        (fun e =>
           match e with
           | XMLSyntaxError => Ret []
           | _ => Ret []
           end).

(** ** [processar_diretorio_xml] *)

(** What the function meets on disk. *)
Inductive directory : Type :=
| NotADirectory                       (* empty path, or [isdir] is false *)
| ListdirFails (e : exn)              (* [os.listdir] raises *)
| Listing (entries : list xml_file).  (* the entries, in listing order *)

Definition ends_with_xml (name : string) : bool :=
  let l := map lower (list_ascii_of_string name) in
  let n := List.length l in
  (4 <=? n)%nat &&
  (string_of_list_ascii (skipn (n - 4) l) =? ".xml").

(** The frame returned, with the counters the function reports through
    its messages.  [data_hora_emissao] keeps the raw text: the conversion
    of the column by [pd.to_datetime], the last step before the return,
    is not modelled.  Where pandas refuses the column as a whole (time
    stamps of different UTC offsets, in some versions) the program raises
    there and returns no frame; the properties below speak of the frames
    and counters of the runs that return. *)
Record batch : Type := Batch {
  df : list item;
  total_files : nat;
  processed_count : nat;
  error_files : list string
}.

Record loop_state : Type := LoopState {
  all_data : list item;
  st_processed : nat;
  st_errors : list string
}.

(** Lines 151-158, one turn of the loop over the files. *)
Definition file_step (tipo_doc : string) (st : loop_state)
    (f : xml_file) : loop_state :=
  match parse_xml_base f tipo_doc with
  | Ret data =>
      match data with
      | [] => st
      | _ => {| all_data := (all_data st ++ data)%list;
                st_processed := S (st_processed st);
                st_errors := st_errors st |}
      end
  | Raise _ =>
      {| all_data := all_data st;
         st_processed := st_processed st;
         st_errors := (st_errors st ++ [basename f])%list |}
  end.

(** [pd.to_numeric(column, errors='coerce').fillna(0.0)] on a float. *)
Definition fillna (x : float) : float :=
  if is_nan x then fzero else x.

Definition coerce (r : item) : item :=
  {| arquivo_origem := arquivo_origem r;
     data_hora_emissao := data_hora_emissao r;
     tipo_documento := tipo_documento r;
     codigo_produto := codigo_produto r;
     nome_produto := nome_produto r;
     NCM := NCM r;
     CFOP := CFOP r;
     codigo_barras := codigo_barras r;
     quantidade := fillna (quantidade r);
     valor_unitario := fillna (valor_unitario r);
     valor_total_item := fillna (valor_total_item r) |}.

Definition empty_batch (total : nat) (processed : nat)
    (errors : list string) : batch :=
  {| df := []; total_files := total;
     processed_count := processed; error_files := errors |}.

Definition processar_diretorio_xml (diretorio : directory)
    (tipo_doc : string) : batch :=
  match diretorio with
  | NotADirectory => empty_batch 0 0 []
  | ListdirFails _ => empty_batch 0 0 []
  | Listing entries =>
      let files := filter (fun f => ends_with_xml (basename f)) entries in
      match files with
      | [] => empty_batch 0 0 []
      | _ =>
          let st := fold_left (file_step tipo_doc) files
                      {| all_data := []; st_processed := 0;
                         st_errors := [] |} in
          {| df := match all_data st with
                   | [] => []
                   | data => map coerce data
                   end;
             total_files := List.length files;
             processed_count := st_processed st;
             error_files := st_errors st |}
      end
  end.

(** ** [criar_resumo_produto] *)

Section Sorting.
Context {A : Type} (before : A -> A -> bool).

Fixpoint insert (x : A) (l : list A) : list A :=
  match l with
  | [] => [x]
  | y :: l' => if before x y then x :: l else y :: insert x l'
  end.

Fixpoint sort (l : list A) : list A :=
  match l with
  | [] => []
  | x :: l' => insert x (sort l')
  end.
End Sorting.

(** The non-null entries of a column, in row order. *)
Definition dropna {A : Type} (x : list (option A)) : list A :=
  flat_map (fun o => match o with Some a => [a] | None => [] end) x.

Definition count (v : string) (l : list string) : nat :=
  List.length (filter (String.eqb v) l).

Definition max_count (l : list string) : nat :=
  fold_right (fun v m => Nat.max (count v l) m) 0%nat l.

(** [x.mode()]: the non-null values of highest frequency, in sorted
    order. *)
Definition mode (x : list (option string)) : list string :=
  let vals := dropna x in
  sort String.leb
    (nodup string_dec
       (filter (fun v => (count v vals =? max_count vals)%nat) vals)).

(** [lambda x: x.mode()[0] if not x.mode().empty else None] *)
Definition cfop_agg (x : list (option string)) : option string :=
  match mode x with
  | [] => None
  | v :: _ => Some v
  end.

(** The aggregation ['first']: the first non-null entry of the group. *)
Definition first (x : list (option string)) : option string :=
  hd_error (dropna x).

(** The aggregations ['sum'] and ['mean'] skip NaN entries.  The sum is
    taken left to right from 0.0; pandas accumulates with a compensation
    term, so its total can differ in the last bit, in the sign of a zero
    and after an overflow.  No property below reads the value of a total
    beyond the scenario of three documents, where the sums are exact. *)
Definition skipna (x : list float) : list float :=
  filter (fun v => negb (is_nan v)) x.

Definition agg_sum (x : list float) : float :=
  fold_left fadd (skipna x) fzero.

Definition float_of_nat (n : nat) : float :=
  binary_normalize prec emax (Z.of_nat n) 0 false.

Definition agg_mean (x : list float) : float :=
  match skipna x with
  | [] => S754_nan
  | vals => fdiv (fold_left fadd vals fzero) (float_of_nat (List.length vals))
  end.

(** A row of the summary; [tipo] only enters the column titles
    ([qtd_total_<tipo>] and so on). *)
Record resumo : Type := Resumo {
  r_codigo_produto : string;
  r_nome_produto : option string;
  qtd_total : float;
  valor_total : float;
  CFOP_predominante : option string;
  r_NCM : option string;
  valor_unitario_medio : float
}.

Definition has_codigo (r : item) : bool :=
  match codigo_produto r with Some _ => true | None => false end.

(** The rows of one product code, in frame order. *)
Definition group (k : string) (df_clean : list item) : list item :=
  filter (fun r => option_eqb (codigo_produto r) (Some k)) df_clean.

Definition agg (k : string) (g : list item) : resumo :=
  {| r_codigo_produto := k;
     r_nome_produto := first (map nome_produto g);
     qtd_total := agg_sum (map quantidade g);
     valor_total := agg_sum (map valor_total_item g);
     CFOP_predominante := cfop_agg (map CFOP g);
     r_NCM := first (map NCM g);
     valor_unitario_medio := agg_mean (map valor_unitario g) |}.

(** [groupby('codigo_produto', as_index=False).agg(agg_funcs)]: one row
    per key, keys in sorted order. *)
Definition groupby_agg (df_clean : list item) : list resumo :=
  let keys :=
    sort String.leb (nodup string_dec (dropna (map codigo_produto df_clean))) in
  map (fun k => agg k (group k df_clean)) keys.

(** [sort_values(by=qtd_total, ascending=False)]: larger totals first,
    NaN totals last.  Rows of equal total keep their order here; pandas
    leaves that order to the sorting routine. *)
Definition before_desc (a b : resumo) : bool :=
  if is_nan (qtd_total b) then true
  else if is_nan (qtd_total a) then false
  else SFleb (qtd_total b) (qtd_total a).

Definition sort_values (df_resumo : list resumo) : list resumo :=
  sort before_desc df_resumo.

Definition criar_resumo_produto (df : list item) (tipo : string)
    : list resumo :=
  match df with
  | [] => []
  | _ =>
      let df_clean := filter has_codigo df in
      match df_clean with
      | [] => []
      | _ => sort_values (groupby_agg df_clean)
      end
  end.

(** ** Vocabulary of the statements *)

(** The element a lookup selects: the first node of the axis whose tag is
    the resolved name. *)
Definition first_tagged (t : qname) (l : list element) : option element :=
  List.find (fun c => qname_eqb (tag c) t) l.

Definition text_of (found : option element) : option string :=
  match found with
  | Some f => text f
  | None => None
  end.

Definition path_prefix (p : xpath) : option string :=
  match p with child q _ | descendant q _ => q end.

Definition path_name (p : xpath) : string :=
  match p with child _ n | descendant _ n => n end.

(** The prefix of the path, if any, is a key of the map. *)
Definition prefix_bound (p : xpath) (namespaces : option nsmap) : bool :=
  match path_prefix p, namespaces with
  | None, _ => true
  | Some q, Some d =>
      match dict_get q d with Some _ => true | None => false end
  | Some _, None => false
  end.


(** What the program's two-step lookups select, written without the
    error monad. *)
Definition ns_tag (name : string) : qname := QName (Some nfe) name.
Definition bare_tag (name : string) : qname := QName None name.

Definition prod_value (prod_element : element) (name : string)
    : option string :=
  let a := text_of (first_tagged (ns_tag name) (children prod_element)) in
  if truthy a then a
  else text_of (first_tagged (bare_tag name) (children prod_element)).

Definition number_of (text : option string) : float :=
  match text with
  | None => fzero
  | Some s =>
      if s =? "" then fzero
      else match py_float s with
           | Ret x => x
           | Raise _ => fzero
           end
  end.

Definition dh_emi_of (root : element) : option string :=
  match first_tagged (ns_tag "ide") (iterdescendants root) with
  | Some ide => text_of (first_tagged (ns_tag "dhEmi") (children ide))
  | None =>
      match first_tagged (bare_tag "ide") (iterdescendants root) with
      | Some ide => text_of (first_tagged (bare_tag "dhEmi") (children ide))
      | None => None
      end
  end.

Definition tagged (t : qname) (l : list element) : list element :=
  filter (fun c => qname_eqb (tag c) t) l.

Definition dets_of (root : element) : list element :=
  match tagged (ns_tag "det") (iterdescendants root) with
  | [] => tagged (bare_tag "det") (iterdescendants root)
  | l => l
  end.

Definition prod_of (det : element) : option element :=
  match first_tagged (ns_tag "prod") (children det) with
  | Some p => Some p
  | None => first_tagged (bare_tag "prod") (children det)
  end.

(** The record built from a product element, before the retention test. *)
Definition item_of (arquivo tipo_doc : string) (dh_emi : option string)
    (prod_element : element) : item :=
  let qtd := number_of (prod_value prod_element "qCom") in
  let vun := number_of (prod_value prod_element "vUnCom") in
  {| arquivo_origem := arquivo;
     data_hora_emissao := dh_emi;
     tipo_documento := tipo_doc;
     codigo_produto := prod_value prod_element "cProd";
     nome_produto := prod_value prod_element "xProd";
     NCM := prod_value prod_element "NCM";
     CFOP := prod_value prod_element "CFOP";
     codigo_barras := prod_value prod_element "cEAN";
     quantidade := qtd;
     valor_unitario := vun;
     valor_total_item := fmul qtd vun |}.

Definition retained (r : item) : bool :=
  truthy (codigo_produto r) || truthy (nome_produto r).

Definition line_of (arquivo tipo_doc : string) (dh_emi : option string)
    (det : element) : list item :=
  match prod_of det with
  | None => []
  | Some prod_element =>
      let r := item_of arquivo tipo_doc dh_emi prod_element in
      if retained r then [r] else []
  end.

Definition records_of (arquivo tipo_doc : string) (root : element)
    : list item :=
  flat_map (line_of arquivo tipo_doc (dh_emi_of root)) (dets_of root).

(** The records a file contributes to a batch. *)
Definition contribution (tipo_doc : string) (f : xml_file) : list item :=
  match parse_xml_base f tipo_doc with
  | Ret data => data
  | Raise _ => []
  end.

Definition nonempty {A : Type} (l : list A) : bool :=
  match l with [] => false | _ => true end.

(** ** Sample documents *)

Definition el (name : string) (cs : list element) : element :=
  Element (ns_tag name) None cs.

Definition txt (name s : string) : element :=
  Element (ns_tag name) (Some s) [].

Definition bare_el (name : string) (cs : list element) : element :=
  Element (bare_tag name) None cs.

Definition bare_txt (name s : string) : element :=
  Element (bare_tag name) (Some s) [].

(** [<det><prod><cProd>..</cProd><xProd>..</xProd><CFOP>..</CFOP>
    <qCom>..</qCom><vUnCom>..</vUnCom></prod></det>], all in the fiscal
    namespace. *)
Definition prod_line (cProd xProd cfop qCom vUnCom : string) : element :=
  el "prod"
    [txt "cProd" cProd; txt "xProd" xProd; txt "CFOP" cfop;
     txt "qCom" qCom; txt "vUnCom" vUnCom].

Definition det_line (cProd xProd cfop qCom vUnCom : string) : element :=
  el "det" [prod_line cProd xProd cfop qCom vUnCom].

Definition emitted_at : string := "2024-05-02T10:15:00-03:00".

Definition ide_block : element := el "ide" [txt "dhEmi" emitted_at].

Definition nfe_doc (header : element) (dets : list element) : element :=
  el "NFe" [el "infNFe" (header :: dets)].

Definition file_of (name : string) (root : element) : xml_file :=
  {| basename := name; parsed := Ret root |}.

(** Quantity text ["abc"], unit price text ["5.0"]. *)
Definition doc_abc : element :=
  nfe_doc ide_block [det_line "P1" "Parafuso" "5102" "abc" "5.0"].

(** A namespaced header whose time stamp child is unqualified, and the
    converse. *)
Definition doc_mixed_child : element :=
  nfe_doc (el "ide" [bare_txt "dhEmi" emitted_at])
    [det_line "P1" "Parafuso" "5102" "2" "5.0"].

Definition doc_mixed_header : element :=
  nfe_doc (bare_el "ide" [txt "dhEmi" emitted_at])
    [det_line "P1" "Parafuso" "5102" "2" "5.0"].

(** A namespaced header without time stamp, and further on an unqualified
    header with an unqualified time stamp. *)
Definition doc_two_headers : element :=
  nfe_doc (el "ide" [])
    [bare_el "ide" [bare_txt "dhEmi" emitted_at];
     det_line "P1" "Parafuso" "5102" "2" "5.0"].

(** The whole header path unqualified. *)
Definition doc_bare_header : element :=
  nfe_doc (bare_el "ide" [bare_txt "dhEmi" emitted_at])
    [det_line "P1" "Parafuso" "5102" "2" "5.0"].

Definition five : float := S754_finite false 5629499534213120 (-50).

(** A batch of three files: the first yields two lines of product P1,
    the second is malformed, the third yields one line of product P2. *)
Definition file_A : xml_file :=
  file_of "A.xml"
    (nfe_doc ide_block
       [det_line "P1" "Parafuso" "5102" "3" "10";
        det_line "P1" "Parafuso" "5102" "5" "10"]).

Definition file_B : xml_file :=
  {| basename := "B.xml"; parsed := Raise XMLSyntaxError |}.

Definition file_C : xml_file :=
  file_of "C.xml" (nfe_doc ide_block [det_line "P2" "Porca" "5405" "1" "100"]).

Definition batch_ABC : batch :=
  processar_diretorio_xml (Listing [file_A; file_B; file_C]) "Venda".

(** Quantity text ["inf"], unit price text ["0"]. *)
Definition file_inf : xml_file :=
  file_of "inf.xml" (nfe_doc ide_block [det_line "P1" "Parafuso" "5102" "inf" "0"]).

(** Quantity text ["-5"]. *)
Definition file_minus : xml_file :=
  file_of "minus.xml"
    (nfe_doc ide_block [det_line "P1" "Parafuso" "5102" "-5" "2"]).

(** [x] is a zero, a finite number or an infinity of sign [s]. *)
Definition signed (s : bool) (x : float) : bool :=
  match x with
  | S754_zero s' | S754_infinity s' | S754_finite s' _ _ => Bool.eqb s s'
  | S754_nan => false
  end.

(** [x == y] as Python evaluates it. *)
Definition feqb : float -> float -> bool := SFeqb.

(** The record of [file_C], as extracted. *)
Definition item_C : item :=
  item_of "C.xml" "Venda" (Some emitted_at)
    (prod_line "P2" "Porca" "5405" "1" "100").

(** The text begins, after leading white space, with a minus sign. *)
Definition leading_minus (s : string) : bool :=
  match lstrip (to_ascii s) with
  | c :: _ => Ascii.eqb c "-"
  | [] => false
  end.

Definition minus_text (text : option string) : bool :=
  match text with
  | Some s => leading_minus s
  | None => false
  end.

(** ** Documents with and without the namespace *)

(** The same document with every namespace qualifier removed. *)
Fixpoint strip_ns (e : element) : element :=
  match e with
  | Element t x cs => Element (bare_tag (q_local t)) x (map strip_ns cs)
  end.

(** [P] holds of the element and of all its descendants. *)
Fixpoint every (P : element -> bool) (e : element) : bool :=
  match e with
  | Element _ _ cs => P e && forallb (every P) cs
  end.

Definition in_nfe (e : element) : bool :=
  option_eqb (q_ns (tag e)) (Some nfe).

(** Every element of the document carries the fiscal namespace. *)
Definition all_nfe (e : element) : bool := every in_nfe e.

Definition null_if_blank (v : option string) : option string :=
  if truthy v then v else None.

(** The record in which an empty string in one of the five text fields
    of the product is replaced by null. *)
Definition blank_to_null (r : item) : item :=
  {| arquivo_origem := arquivo_origem r;
     data_hora_emissao := data_hora_emissao r;
     tipo_documento := tipo_documento r;
     codigo_produto := null_if_blank (codigo_produto r);
     nome_produto := null_if_blank (nome_produto r);
     NCM := null_if_blank (NCM r);
     CFOP := null_if_blank (CFOP r);
     codigo_barras := null_if_blank (codigo_barras r);
     quantidade := quantidade r;
     valor_unitario := valor_unitario r;
     valor_total_item := valor_total_item r |}.

Definition text_not_blank (e : element) : bool :=
  negb (option_eqb (text e) (Some "")).

(** No element of the document has the empty string as its text. *)
Definition no_blank_text (e : element) : bool := every text_not_blank e.

(** A product whose code element holds an empty text, as
    [<cProd><![CDATA[]]></cProd>] does. *)
Definition doc_blank_code : element :=
  nfe_doc ide_block
    [el "det"
       [el "prod"
          [txt "cProd" ""; txt "xProd" "Parafuso"; txt "CFOP" "5102";
           txt "qCom" "2"; txt "vUnCom" "5.0"]]].

(** ** The spec's reading of the dominant category

    Written from the words of the specification, for comparison with
    [cfop_agg]: among the values of highest frequency, the one met first
    in row order. *)
Definition first_encountered_mode (x : list (option string)) : option string :=
  let vals := dropna x in
  List.find (fun v => (count v vals =? max_count vals)%nat) vals.

(** Two lines of product P1 with category codes 5405 and 5102, in this
    order. *)
Definition file_tie : xml_file :=
  file_of "tie.xml"
    (nfe_doc ide_block
       [det_line "P1" "Parafuso" "5405" "3" "10";
        det_line "P1" "Parafuso" "5102" "5" "10"]).

(** Product P1 with quantity texts ["inf"] and ["-inf"], product P2 with
    quantity text ["1"]. *)
Definition file_opposite : xml_file :=
  file_of "opposite.xml"
    (nfe_doc ide_block
       [det_line "P1" "Parafuso" "5102" "inf" "10";
        det_line "P1" "Parafuso" "5102" "-inf" "10";
        det_line "P2" "Porca" "5102" "1" "100"]).

Definition one : float := S754_finite false 4503599627370496 (-52).

(** The rows of a group of the cleaned frame. *)
Definition group_of (df : list item) (k : string) : list item :=
  group k (filter has_codigo df).

Definition frame_tie : list item :=
  df (processar_diretorio_xml (Listing [file_tie]) "Venda").

Definition frame_opposite : list item :=
  df (processar_diretorio_xml (Listing [file_opposite]) "Venda").

Definition eight : float := S754_finite false 4503599627370496 (-49).
Definition eighty : float := S754_finite false 5629499534213120 (-46).
Definition hundred : float := S754_finite false 7036874417766400 (-46).

(** ** The figures under the button (lines 208-234 and 288-343) *)

(** [df_vendas_detalhe], [df_compras_detalhe]: the frame of one document
    class; a path that is not a directory leaves the empty frame. *)
Definition detalhe (diretorio : directory) (tipo_doc : string) : list item :=
  df (processar_diretorio_xml diretorio tipo_doc).

(** [processou_vendas], [processou_compras]: the frame is not empty. *)
Definition processou (df_detalhe : list item) : bool := nonempty df_detalhe.

(** ['CFOP' in df]: every record has the key, so the frame has the column
    as soon as it has a row. *)
Definition tem_coluna_CFOP (df_detalhe : list item) : bool :=
  nonempty df_detalhe.

(** [df[df['CFOP'] == code]] *)
Definition cfop_igual (code : string) (df_detalhe : list item) : list item :=
  filter (fun r => option_eqb (CFOP r) (Some code)) df_detalhe.

(** [df[df['CFOP'].isin(codes)]] *)
Definition cfop_isin (codes : list string) (df_detalhe : list item)
    : list item :=
  filter (fun r =>
            match CFOP r with
            | Some c => existsb (String.eqb c) codes
            | None => false
            end) df_detalhe.

(** [len(df[df['CFOP'] == code]) if processou and 'CFOP' in df else 0] *)
Definition conta_cfop_igual (code : string) (df_detalhe : list item) : nat :=
  if processou df_detalhe && tem_coluna_CFOP df_detalhe
  then List.length (cfop_igual code df_detalhe)
  else 0.

(** [len(df[df['CFOP'].isin(codes)]) if processou and 'CFOP' in df else 0] *)
Definition conta_cfop_isin (codes : list string) (df_detalhe : list item)
    : nat :=
  if processou df_detalhe && tem_coluna_CFOP df_detalhe
  then List.length (cfop_isin codes df_detalhe)
  else 0.

Definition cfop_vendas_5102 (df_vendas_detalhe : list item) : nat :=
  conta_cfop_igual "5102" df_vendas_detalhe.

Definition cfop_vendas_5405 (df_vendas_detalhe : list item) : nat :=
  conta_cfop_igual "5405" df_vendas_detalhe.

Definition cfop_compras_1102_ou_2102 (df_compras_detalhe : list item) : nat :=
  conta_cfop_isin ["1102"; "2102"] df_compras_detalhe.

Definition cfop_compras_1403_ou_2403 (df_compras_detalhe : list item) : nat :=
  conta_cfop_isin ["1403"; "2403"] df_compras_detalhe.

(** [len(df) if processou else 0] *)
Definition total_linhas (df_detalhe : list item) : nat :=
  if processou df_detalhe then List.length df_detalhe else 0.

(** [df_resumo.head(20)] *)
Definition top_20 (df_resumo : list resumo) : list resumo :=
  firstn 20 df_resumo.

(** ** Further vocabulary *)

(** The item element has a product element with a code or a name that is
    neither null nor empty. *)
Definition identified (det : element) : bool :=
  match prod_of det with
  | Some p => truthy (prod_value p "cProd") || truthy (prod_value p "xProd")
  | None => false
  end.

(** A document with one item in the fiscal namespace and two unqualified
    items. *)
Definition doc_mixed_items : element :=
  nfe_doc ide_block
    [det_line "P1" "Parafuso" "5102" "2" "5.0";
     bare_el "det" [bare_el "prod" [bare_txt "cProd" "P7"]];
     bare_el "det" [bare_el "prod" [bare_txt "cProd" "P8"]]].

Definition file_notes : xml_file :=
  {| basename := "notes.txt"; parsed := Raise OSError |}.

(** The files the batch loop visits. *)
Definition files_of (diretorio : directory) : list xml_file :=
  match diretorio with
  | Listing entries => filter (fun f => ends_with_xml (basename f)) entries
  | _ => []
  end.

(** Three lines of product P1: the first without name, of category 5102,
    the next two named, of category 5405. *)
Definition file_names : xml_file :=
  file_of "names.xml"
    (nfe_doc ide_block
       [el "det" [el "prod" [txt "cProd" "P1"; txt "CFOP" "5102";
                              txt "qCom" "1"; txt "vUnCom" "2"]];
        det_line "P1" "Parafuso" "5405" "3" "10";
        det_line "P1" "Parafuso grande" "5405" "5" "10"]).

Definition frame_names : list item :=
  df (processar_diretorio_xml (Listing [file_names]) "Venda").

Definition row_names : resumo := agg "P1" (group_of frame_names "P1").

(** A frame of twenty-one products, product [n] with quantity [n]. *)
Definition product_row (n : nat) (code : string) : item :=
  {| arquivo_origem := "many.xml";
     data_hora_emissao := None;
     tipo_documento := "Venda";
     codigo_produto := Some code;
     nome_produto := Some code;
     NCM := None;
     CFOP := Some "5102";
     codigo_barras := None;
     quantidade := float_of_nat n;
     valor_unitario := one;
     valor_total_item := fmul (float_of_nat n) one |}.

Definition frame_21 : list item :=
  map (fun nc => product_row (fst nc) (snd nc))
    [(1, "P01"); (2, "P02"); (3, "P03"); (4, "P04"); (5, "P05");
     (6, "P06"); (7, "P07"); (8, "P08"); (9, "P09"); (10, "P10");
     (11, "P11"); (12, "P12"); (13, "P13"); (14, "P14"); (15, "P15");
     (16, "P16"); (17, "P17"); (18, "P18"); (19, "P19"); (20, "P20");
     (21, "P21")]%nat.

(** ** Texts outside ASCII *)

(** U+00A0, the no-break space, and the Arabic-Indic digits one, two,
    three (U+0661 to U+0663), as UTF-8. *)
Definition nbsp : string :=
  string_of_list_ascii (map ascii_of_nat [194; 160]%nat).

Definition arabic_123 : string :=
  string_of_list_ascii (map ascii_of_nat [217; 161; 217; 162; 217; 163]%nat).

(** Quantity text: a no-break space, then [-5]. *)
Definition file_nbsp_minus : xml_file :=
  file_of "nbsp.xml"
    (nfe_doc ide_block
       [det_line "P1" "Parafuso" "5102" (nbsp ++ "-5") "2"]).

(** ** Items read without regard to namespaces *)

(** The elements of a list that have a given local name. *)
Definition named (name : string) (l : list element) : list element :=
  filter (fun c => q_local (tag c) =? name) l.

(** The item element has a product child whose first code child or first
    name child has a text that is not empty, all taken by local name. *)
Definition has_code_or_name (det : element) : bool :=
  match hd_error (named "prod" (children det)) with
  | Some p =>
      truthy (text_of (hd_error (named "cProd" (children p)))) ||
      truthy (text_of (hd_error (named "xProd" (children p))))
  | None => false
  end.

Definition in_namespace (u : option string) (e : element) : bool :=
  option_eqb (q_ns (tag e)) u.

(** Every element of the document has the namespace [u]; [None] stands
    for no namespace. *)
Definition uniform (u : option string) (e : element) : bool :=
  every (in_namespace u) e.
(** * Properties *)

(** ** Lookups *)

Lemma hd_error_filter {A : Type} (f : A -> bool) (l : list A) :
  hd_error (filter f l) = List.find f l.
Proof.
  induction l as [|a l IH]; simpl; [reflexivity|].
  destruct (f a); [reflexivity | exact IH].
Qed.

Lemma resolve_bound p namespaces :
  prefix_bound p namespaces = true ->
  exists t, resolve (path_prefix p) (path_name p) namespaces = Ret t.
Proof.
  unfold prefix_bound, resolve.
  destruct (path_prefix p) as [q|], namespaces as [[|kv d]|];
    try discriminate; intros H; eauto.
  - destruct (dict_get q (kv :: d)); [eauto | discriminate].
  - destruct (dict_get "" (kv :: d)); eauto.
Qed.

Lemma resolve_unbound p namespaces :
  prefix_bound p namespaces = false ->
  resolve (path_prefix p) (path_name p) namespaces = Raise SyntaxError.
Proof.
  unfold prefix_bound, resolve.
  destruct (path_prefix p) as [q|], namespaces as [[|kv d]|];
    try discriminate; intros H; try reflexivity.
  destruct (dict_get q (kv :: d)); [discriminate | reflexivity].
Qed.

Lemma find_resolved e p namespaces t :
  resolve (path_prefix p) (path_name p) namespaces = Ret t ->
  find e p namespaces = Ret (first_tagged t (select e p)).
Proof.
  intros H. unfold find, findall, first_tagged.
  destruct p; simpl in *; rewrite H; simpl; now rewrite hd_error_filter.
Qed.

Lemma find_unresolved e p namespaces x :
  resolve (path_prefix p) (path_name p) namespaces = Raise x ->
  find e p namespaces = Raise x.
Proof.
  intros H. unfold find, findall.
  destruct p; simpl in *; now rewrite H.
Qed.

(** The lookups the program makes: prefix [ns] with the map [ns], or a
    bare name with no map. *)
Lemma find_ns e p name :
  p = child (Some "ns") name \/ p = descendant (Some "ns") name ->
  find e p (Some ns) = Ret (first_tagged (QName (Some nfe) name) (select e p)).
Proof.
  intros [-> | ->]; now apply find_resolved.
Qed.

Lemma find_bare e p name :
  p = child None name \/ p = descendant None name ->
  find e p None = Ret (first_tagged (QName None name) (select e p)).
Proof.
  intros [-> | ->]; now apply find_resolved.
Qed.

Lemma get_xml_text_ns e name :
  get_xml_text (Some e) (child (Some "ns") name) (Some ns)
  = Ret (text_of (first_tagged (QName (Some nfe) name) (children e))).
Proof. unfold get_xml_text; rewrite (find_ns e _ name) by auto; reflexivity. Qed.

Lemma get_xml_text_bare e name :
  get_xml_text (Some e) (child None name) None
  = Ret (text_of (first_tagged (QName None name) (children e))).
Proof. unfold get_xml_text; rewrite (find_bare e _ name) by auto; reflexivity. Qed.

(** C10, as amended.  For every element argument, [None] included, and
    every path whose prefix the namespace map binds (a bare path needs no
    map), [get_xml_text] returns: [None] for a [None] element, and
    otherwise the text of the first node the path selects, or [None] when
    it selects nothing. *)
Theorem get_xml_text_total (element : option element) (p : xpath)
    (namespaces : option nsmap) :
  prefix_bound p namespaces = true ->
  exists t,
    resolve (path_prefix p) (path_name p) namespaces = Ret t /\
    get_xml_text element p namespaces =
      Ret (match element with
           | None => None
           | Some e => text_of (first_tagged t (select e p))
           end).
Proof.
  intros H. destruct (resolve_bound _ _ H) as [t Ht].
  exists t. split; [exact Ht|].
  destruct element as [e|]; [|reflexivity].
  unfold get_xml_text. now rewrite (find_resolved e p namespaces t Ht).
Qed.

(** With a prefix the map does not bind, the lookup raises for every
    element; only a [None] element returns. *)
Lemma get_xml_text_unbound (e : element) (p : xpath)
    (namespaces : option nsmap) :
  prefix_bound p namespaces = false ->
  get_xml_text (Some e) p namespaces = Raise SyntaxError.
Proof.
  intros H. unfold get_xml_text.
  now rewrite (find_unresolved e p namespaces _ (resolve_unbound _ _ H)).
Qed.

(** ** [float] on sample texts *)

Example py_float_tenth :
  py_float "0.1" = Ret (S754_finite false 7205759403792794 (-56)).
Proof. vm_compute. reflexivity. Qed.

Example py_float_tie_to_even :
  py_float "9007199254740993" = Ret (S754_finite false 4503599627370496 1).
Proof. vm_compute. reflexivity. Qed.

Example py_float_subnormal :
  py_float "4.9e-324" = Ret (S754_finite false 1 (-1074)) /\
  py_float "2e-324" = Ret (S754_zero false).
Proof. split; vm_compute; reflexivity. Qed.

Example py_float_overflow :
  py_float "1.7976931348623157e308"
  = Ret (S754_finite false 9007199254740991 971) /\
  py_float "1.7976931348623159e308" = Ret (S754_infinity false).
Proof. split; vm_compute; reflexivity. Qed.

Example py_float_words :
  py_float " -Infinity " = Ret (S754_infinity true) /\
  py_float "NaN" = Ret S754_nan /\
  py_float "1_000.5e+2" = Ret (S754_finite false 6875383647436800 (-36)) /\
  py_float "1__0" = Raise ValueError /\
  py_float "5e" = Raise ValueError /\
  py_float "0x10" = Raise ValueError.
Proof. repeat split; vm_compute; reflexivity. Qed.

(** ** The extractor without the error monad *)

Lemma prod_text_value e name :
  prod_text e name = Ret (prod_value e name).
Proof.
  unfold prod_text, prod_value.
  rewrite get_xml_text_ns, get_xml_text_bare. simpl.
  fold (ns_tag name).
  destruct (truthy (text_of (first_tagged (ns_tag name) (children e))));
    reflexivity.
Qed.

Lemma py_float_raises s e : py_float s = Raise e -> e = ValueError.
Proof.
  unfold py_float.
  destruct (drop_underscores None (strip (to_ascii s))) as [l|];
    [|congruence].
  destruct (read_sign l) as [neg l'].
  destruct (read_unsigned l'); congruence.
Qed.

Lemma float_or_zero_number text :
  float_or_zero text = Ret (number_of text).
Proof.
  unfold float_or_zero, number_of.
  destruct text as [s|]; simpl; [|reflexivity].
  destruct (s =? ""); simpl; [reflexivity|].
  destruct (py_float s) as [x|e] eqn:E; simpl; [reflexivity|].
  now rewrite (py_float_raises s e E).
Qed.

Lemma read_dh_emi_value root : read_dh_emi root = Ret (dh_emi_of root).
Proof.
  unfold read_dh_emi, dh_emi_of.
  rewrite (find_ns root _ "ide") by auto. cbn [bind select].
  fold (ns_tag "ide").
  destruct (first_tagged (ns_tag "ide") (iterdescendants root)) as [ide|].
  - now rewrite get_xml_text_ns.
  - rewrite !(find_bare root _ "ide") by auto. cbn [bind select].
    fold (bare_tag "ide").
    destruct (first_tagged (bare_tag "ide") (iterdescendants root)) as [ide|];
      [|reflexivity].
    now rewrite get_xml_text_bare.
Qed.

Lemma read_det_elements_value root :
  read_det_elements root = Ret (dets_of root).
Proof.
  unfold read_det_elements, dets_of, findall, tagged. simpl.
  fold (ns_tag "det").
  destruct (filter _ (iterdescendants root)); reflexivity.
Qed.

Lemma read_prod_element_value det :
  read_prod_element det = Ret (prod_of det).
Proof.
  unfold read_prod_element, prod_of.
  rewrite (find_ns det _ "prod") by auto. simpl.
  fold (ns_tag "prod").
  destruct (first_tagged (ns_tag "prod") (children det)); [reflexivity|].
  now rewrite (find_bare det _ "prod") by auto.
Qed.

Lemma loop_body_value f tipo_doc dh_emi det :
  loop_body f tipo_doc dh_emi det =
  Ret (hd_error (line_of (basename f) tipo_doc dh_emi det)).
Proof.
  unfold loop_body, line_of.
  rewrite read_prod_element_value. simpl.
  destruct (prod_of det) as [p|]; [|reflexivity].
  rewrite !prod_text_value. simpl.
  rewrite !float_or_zero_number. simpl.
  unfold retained, item_of. simpl.
  destruct (truthy (prod_value p "cProd") || truthy (prod_value p "xProd"));
    reflexivity.
Qed.

Lemma line_of_short arquivo tipo_doc dh_emi det :
  line_of arquivo tipo_doc dh_emi det =
  match hd_error (line_of arquivo tipo_doc dh_emi det) with
  | Some r => [r]
  | None => []
  end.
Proof.
  unfold line_of. destruct (prod_of det); [|reflexivity].
  destruct (retained _); reflexivity.
Qed.

Lemma for_det_value f tipo_doc dh_emi dets itens :
  for_det f tipo_doc dh_emi dets itens =
  Ret (itens ++ flat_map (line_of (basename f) tipo_doc dh_emi) dets)%list.
Proof.
  revert itens. induction dets as [|det dets IH]; intros itens; simpl.
  - now rewrite app_nil_r.
  - rewrite loop_body_value. simpl. rewrite IH.
    rewrite (line_of_short _ _ _ det).
    destruct (hd_error (line_of (basename f) tipo_doc dh_emi det));
      simpl; [now rewrite <- app_assoc | reflexivity].
Qed.

(** The extractor returns, whatever the file holds. *)
Lemma parse_xml_base_value f tipo_doc :
  parse_xml_base f tipo_doc =
  Ret (match parsed f with
       | Ret root => records_of (basename f) tipo_doc root
       | Raise _ => []
       end).
Proof.
  unfold parse_xml_base, parse_xml_base_try, records_of.
  destruct (parsed f) as [root|e]; simpl.
  - rewrite read_dh_emi_value. simpl.
    rewrite read_det_elements_value. simpl.
    now rewrite for_det_value.
  - destruct e; reflexivity.
Qed.

Lemma parse_xml_base_emits f tipo_doc itens r :
  parse_xml_base f tipo_doc = Ret itens -> In r itens ->
  exists root det prod_element,
    parsed f = Ret root /\
    In det (dets_of root) /\
    prod_of det = Some prod_element /\
    r = item_of (basename f) tipo_doc (dh_emi_of root) prod_element /\
    retained r = true.
Proof.
  rewrite parse_xml_base_value. intros [= <-] Hin.
  destruct (parsed f) as [root|e]; [|contradiction].
  unfold records_of in Hin. apply in_flat_map in Hin.
  destruct Hin as [det [Hdet Hr]].
  unfold line_of in Hr.
  destruct (prod_of det) as [p|] eqn:Hp; [|contradiction].
  destruct (retained (item_of (basename f) tipo_doc (dh_emi_of root) p))
    eqn:Hret; [|contradiction].
  destruct Hr as [<- | []].
  exists root, det, p. repeat split; auto.
Qed.

(** ** C10: [get_xml_text] *)

(** C10, the claim as stated fails: the path ['./ns:dhEmi'] with no
    namespace map raises on an element that is not [None]. *)
Lemma get_xml_text_raises_without_map :
  get_xml_text (Some ide_block) (child (Some "ns") "dhEmi") None
  = Raise SyntaxError.
Proof. reflexivity. Qed.

Lemma get_xml_text_total_witness :
  prefix_bound (child (Some "ns") "dhEmi") (Some ns) = true /\
  exists t,
    resolve (Some "ns") "dhEmi" (Some ns) = Ret t /\
    get_xml_text (Some ide_block) (child (Some "ns") "dhEmi") (Some ns) =
      Ret (text_of (first_tagged t (children ide_block))).
Proof.
  split; [reflexivity|].
  apply (get_xml_text_total (Some ide_block) (child (Some "ns") "dhEmi")
           (Some ns)).
  reflexivity.
Defined.

(** ** C8: numeric conversion *)

(** C8.  Converting a quantity or unit-price text never raises: it
    returns the float the text denotes, and 0.0 when the field is
    missing, empty or not a number; no turn of the item loop raises; and
    an item with quantity text ["abc"] and unit-price text ["5.0"] gets
    quantity 0.0, unit price 5.0 and line total 0.0. *)
Theorem conversion_never_raises :
  (forall text : option string,
     exists v, float_or_zero text = Ret v /\
       match text with
       | None => v = fzero
       | Some s =>
           match py_float s with
           | Ret x => v = x
           | Raise _ => v = fzero
           end
       end) /\
  (forall f tipo_doc dh_emi det,
     exists r, loop_body f tipo_doc dh_emi det = Ret r) /\
  py_float "abc" = Raise ValueError /\
  py_float "" = Raise ValueError /\
  py_float "5.0" = Ret five /\
  exists r,
    parse_xml_base (file_of "a.xml" doc_abc) "Venda" = Ret [r] /\
    quantidade r = fzero /\
    valor_unitario r = five /\
    valor_total_item r = fzero.
Proof.
  split; [|split; [|split; [|split; [|split]]]].
  - intros text. exists (number_of text).
    split; [apply float_or_zero_number|].
    destruct text as [s|]; [|reflexivity]. simpl.
    destruct (String.eqb_spec s "") as [-> | _]; [reflexivity|].
    destruct (py_float s); reflexivity.
  - intros. rewrite loop_body_value. eauto.
  - reflexivity.
  - reflexivity.
  - vm_compute. reflexivity.
  - eexists. split; [vm_compute; reflexivity|].
    repeat split.
Qed.

(** ** C5: retention *)

(** C5.  No record with a null product code and a null product name is
    emitted: every record in the extractor's output has a code or a name
    that is neither null nor empty. *)
Theorem retention_invariant (f : xml_file) (tipo_doc : string)
    (itens : list item) (r : item) :
  parse_xml_base f tipo_doc = Ret itens ->
  In r itens ->
  ~ (codigo_produto r = None /\ nome_produto r = None) /\
  truthy (codigo_produto r) || truthy (nome_produto r) = true.
Proof.
  intros Hp Hin.
  destruct (parse_xml_base_emits _ _ _ _ Hp Hin)
    as (root & det & p & _ & _ & _ & _ & Hret).
  unfold retained in Hret. split; [|exact Hret].
  intros [Hc Hn]. rewrite Hc, Hn in Hret. discriminate.
Qed.

Lemma retention_invariant_witness :
  let r := item_of "a.xml" "Venda" (Some emitted_at)
             (el "prod"
                [txt "cProd" "P1"; txt "xProd" "Parafuso"; txt "CFOP" "5102";
                 txt "qCom" "abc"; txt "vUnCom" "5.0"]) in
  ~ (codigo_produto r = None /\ nome_produto r = None) /\
  truthy (codigo_produto r) || truthy (nome_produto r) = true.
Proof.
  intros r.
  apply (retention_invariant (file_of "a.xml" doc_abc) "Venda" [r] r).
  - vm_compute. reflexivity.
  - left. reflexivity.
Defined.

(** ** C9: the emission time stamp *)

(** C9, the claim as stated fails: a header in the fiscal namespace whose
    time stamp child is unqualified, and an unqualified header whose child
    is in the namespace, both leave the record without time stamp, though
    the text is there.  So does a namespaced header without time stamp
    when an unqualified header with its time stamp follows: the path
    under the namespace yields nothing, the unqualified path would yield
    the text, and it is not tried. *)
Lemma mixed_header_loses_timestamp :
  (exists r,
     parse_xml_base (file_of "a.xml" doc_mixed_child) "Venda" = Ret [r] /\
     data_hora_emissao r = None) /\
  (exists r,
     parse_xml_base (file_of "a.xml" doc_mixed_header) "Venda" = Ret [r] /\
     data_hora_emissao r = None) /\
  (exists r ide,
     parse_xml_base (file_of "a.xml" doc_two_headers) "Venda" = Ret [r] /\
     first_tagged (bare_tag "ide") (iterdescendants doc_two_headers)
     = Some ide /\
     text_of (first_tagged (bare_tag "dhEmi") (children ide))
     = Some emitted_at /\
     data_hora_emissao r = None).
Proof.
  split; [|split].
  - eexists. split; [vm_compute; reflexivity | reflexivity].
  - eexists. split; [vm_compute; reflexivity | reflexivity].
  - do 2 eexists. split; [vm_compute; reflexivity|].
    split; [vm_compute; reflexivity|]. split; reflexivity.
Qed.

(** C9, as amended.  The fallback is decided on the header element alone.
    When no header is found under the fiscal namespace, the first
    unqualified header is taken and the text of its first unqualified
    time stamp child is the time stamp of every record; when a header is
    found under the namespace, only its namespaced child is read. *)
Theorem timestamp_fallback (f : xml_file) (tipo_doc : string)
    (root : element) (itens : list item) (r : item) :
  parsed f = Ret root ->
  parse_xml_base f tipo_doc = Ret itens ->
  In r itens ->
  match first_tagged (ns_tag "ide") (iterdescendants root) with
  | None =>
      data_hora_emissao r =
      match first_tagged (bare_tag "ide") (iterdescendants root) with
      | Some ide => text_of (first_tagged (bare_tag "dhEmi") (children ide))
      | None => None
      end
  | Some ide =>
      data_hora_emissao r =
      text_of (first_tagged (ns_tag "dhEmi") (children ide))
  end.
Proof.
  intros Hroot Hp Hin.
  destruct (parse_xml_base_emits _ _ _ _ Hp Hin)
    as (root' & det & p & Hroot' & _ & _ & -> & _).
  rewrite Hroot in Hroot'. injection Hroot' as <-.
  unfold item_of, dh_emi_of. simpl.
  destruct (first_tagged (ns_tag "ide") (iterdescendants root)); reflexivity.
Qed.

Lemma timestamp_fallback_witness :
  exists r,
    parse_xml_base (file_of "a.xml" doc_bare_header) "Venda" = Ret [r] /\
    first_tagged (ns_tag "ide") (iterdescendants doc_bare_header) = None /\
    data_hora_emissao r = Some emitted_at.
Proof.
  eexists. split; [vm_compute; reflexivity|].
  split; [reflexivity|].
  exact (timestamp_fallback (file_of "a.xml" doc_bare_header) "Venda"
           doc_bare_header _ _ eq_refl eq_refl (or_introl eq_refl)).
Defined.

(** ** C2: the batch loop *)

Lemma contribution_value tipo_doc f :
  parse_xml_base f tipo_doc = Ret (contribution tipo_doc f).
Proof.
  unfold contribution. now rewrite parse_xml_base_value.
Qed.

Lemma file_loop tipo_doc files st :
  let st' := fold_left (file_step tipo_doc) files st in
  all_data st' = (all_data st ++ flat_map (contribution tipo_doc) files)%list /\
  st_processed st' =
    st_processed st +
    List.length (filter (fun f => nonempty (contribution tipo_doc f)) files) /\
  st_errors st' = st_errors st.
Proof.
  revert st. induction files as [|f files IH]; intros st; simpl.
  - rewrite app_nil_r. auto.
  - destruct (IH (file_step tipo_doc st f)) as (Hd & Hc & He).
    rewrite Hd, Hc, He. clear IH Hd Hc He.
    unfold file_step. rewrite (contribution_value tipo_doc f).
    destruct (contribution tipo_doc f) as [|r data]; simpl.
    + auto.
    + rewrite <- app_assoc. simpl. repeat split. lia.
Qed.

Lemma map_coerce_data (data : list item) :
  match data with [] => [] | r :: l => map coerce (r :: l) end
  = map coerce data.
Proof. destruct data; reflexivity. Qed.

Lemma processar_diretorio_xml_value (entries : list xml_file)
    (tipo_doc : string) :
  let files := filter (fun f => ends_with_xml (basename f)) entries in
  let b := processar_diretorio_xml (Listing entries) tipo_doc in
  df b = map coerce (flat_map (contribution tipo_doc) files) /\
  total_files b = List.length files /\
  processed_count b =
    List.length (filter (fun f => nonempty (contribution tipo_doc f)) files) /\
  error_files b = [].
Proof.
  intros files b.
  subst b. unfold processar_diretorio_xml. fold files. clearbody files.
  pose proof (file_loop tipo_doc files
                {| all_data := []; st_processed := 0; st_errors := [] |})
    as (Hd & Hc & He).
  destruct files as [|f0 files0]; [simpl; auto|].
  cbn [df total_files processed_count error_files].
  cbn [all_data st_processed st_errors app Nat.add] in Hd, Hc, He.
  rewrite map_coerce_data, Hd, Hc, He. auto.
Qed.

(** C2, the claim as stated fails: in the batch of [file_A], [file_B] and
    [file_C] the malformed [file_B] contributes nothing and is counted
    out, but its name is not in the failure list, which is empty. *)
Lemma malformed_file_not_listed :
  parsed file_B = Raise XMLSyntaxError /\
  total_files batch_ABC = 3 /\
  processed_count batch_ABC = 2 /\
  List.length (df batch_ABC) = 3 /\
  ~ In (basename file_B) (error_files batch_ABC).
Proof.
  repeat split. vm_compute. intros H. exact H.
Qed.

(** C2, as amended.  A document whose markup is malformed, or that cannot
    be read, makes the extractor return no record and raise nothing.  The
    frame of a batch holds the records of every file in listing order, so
    such a document adds none and the files after it are still
    processed; it is not counted among the files that contributed; and the
    failure list, which takes the files on which the extractor raises,
    stays empty. *)
Theorem malformed_documents_isolated (entries : list xml_file)
    (tipo_doc : string) :
  let files := filter (fun f => ends_with_xml (basename f)) entries in
  let b := processar_diretorio_xml (Listing entries) tipo_doc in
  (forall name e,
     parse_xml_base {| basename := name; parsed := Raise e |} tipo_doc
     = Ret []) /\
  (forall f, exists data, parse_xml_base f tipo_doc = Ret data) /\
  df b = map coerce (flat_map (contribution tipo_doc) files) /\
  total_files b = List.length files /\
  processed_count b =
    List.length (filter (fun f => nonempty (contribution tipo_doc f)) files) /\
  error_files b = [].
Proof.
  intros files b. split; [|split].
  - intros name e. now rewrite parse_xml_base_value.
  - intros f. rewrite parse_xml_base_value. eauto.
  - exact (processar_diretorio_xml_value entries tipo_doc).
Qed.

(** ** Rounding never invents a NaN or a sign *)

Section RoundingFacts.
Variables p em : Z.

Lemma shr_1_nonneg mrs :
  (0 <= shr_m mrs)%Z -> (0 <= shr_m (shr_1 mrs))%Z.
Proof.
  destruct mrs as [m r s]. simpl.
  destruct m as [|q|q]; simpl; try lia; destruct q; simpl; lia.
Qed.

Lemma iter_shr_1_nonneg n : forall mrs,
  (0 <= shr_m mrs)%Z -> (0 <= shr_m (iter_pos shr_1 n mrs))%Z.
Proof.
  induction n as [n IH|n IH|]; intros mrs H; simpl.
  - apply IH, IH, shr_1_nonneg, H.
  - apply IH, IH, H.
  - apply shr_1_nonneg, H.
Qed.

Lemma shr_nonneg mrs e n :
  (0 <= shr_m mrs)%Z -> (0 <= shr_m (fst (shr mrs e n)))%Z.
Proof.
  intros H. destruct n; simpl; auto using iter_shr_1_nonneg.
Qed.

Lemma shr_fexp_nonneg m e l :
  (0 <= m)%Z -> (0 <= shr_m (fst (shr_fexp p em m e l)))%Z.
Proof.
  intros H. unfold shr_fexp. apply shr_nonneg.
  destruct l as [|[]]; exact H.
Qed.

Lemma round_nearest_even_nonneg mx lx :
  (0 <= mx)%Z -> (0 <= round_nearest_even mx lx)%Z.
Proof.
  intros H. destruct lx as [|[]]; simpl; try destruct (Z.even mx); lia.
Qed.

Lemma binary_round_aux_signed s mx ex lx :
  (0 <= mx)%Z -> signed s (binary_round_aux p em s mx ex lx) = true.
Proof.
  intros H. unfold binary_round_aux.
  pose proof (shr_fexp_nonneg mx ex lx H) as H1.
  destruct (shr_fexp p em mx ex lx) as [mrs' e']. simpl in H1.
  pose proof (shr_fexp_nonneg _ e' loc_Exact
                (round_nearest_even_nonneg _ (loc_of_shr_record mrs') H1))
    as H2.
  destruct (shr_fexp p em _ e' loc_Exact) as [mrs'' e'']. simpl in H2.
  destruct (shr_m mrs'') as [|q|q]; simpl.
  - apply eqb_reflx.
  - destruct (e'' <=? em - p)%Z; apply eqb_reflx.
  - lia.
Qed.

Lemma binary_round_signed s m e :
  signed s (binary_round p em s m e) = true.
Proof.
  unfold binary_round.
  destruct (shl_align m e _) as [mz ez].
  apply binary_round_aux_signed. lia.
Qed.
End RoundingFacts.

Lemma signed_not_nan s x : signed s x = true -> is_nan x = false.
Proof. destruct x; simpl; congruence. Qed.

Lemma signed_nonneg x : signed false x = true -> nonneg x = true.
Proof.
  destruct x as [s|s| |s m e]; simpl; try discriminate;
    destruct s; simpl; try discriminate; reflexivity.
Qed.

Lemma fmul_nan x y :
  is_nan (fmul x y) = false -> is_nan x = false /\ is_nan y = false.
Proof.
  destruct x, y; simpl; auto; discriminate.
Qed.

Lemma fmul_finite x y :
  is_finite x = true -> is_finite y = true -> is_nan (fmul x y) = false.
Proof.
  destruct x as [sx|sx| |sx mx ex], y as [sy|sy| |sy my ey];
    simpl; try discriminate; try reflexivity.
  intros _ _. unfold fmul, SFmul.
  apply (signed_not_nan (xorb sx sy)), binary_round_aux_signed. lia.
Qed.

Lemma fillna_number x : is_nan x = false -> fillna x = x.
Proof. unfold fillna. now intros ->. Qed.

(** ** C6: the line total *)

(** C6, the claim as stated fails: with quantity text ["inf"] and unit
    price text ["0"], the frame of the batch holds quantity infinity,
    unit price 0.0 and line total 0.0, while infinity times 0.0 is NaN. *)
Lemma coerced_total_differs :
  exists r,
    df (processar_diretorio_xml (Listing [file_inf]) "Venda") = [r] /\
    quantidade r = S754_infinity false /\
    valor_unitario r = fzero /\
    valor_total_item r = fzero /\
    fmul (quantidade r) (valor_unitario r) = S754_nan /\
    valor_total_item r <> fmul (quantidade r) (valor_unitario r) /\
    feqb (valor_total_item r) (fmul (quantidade r) (valor_unitario r)) = false.
Proof.
  eexists. split; [vm_compute; reflexivity|].
  repeat split. discriminate.
Qed.


(** C6, as amended.  Every row of the frame of a batch is the coerced
    copy of a record that the extractor emitted for one of the files.
    At creation the line total of that record is the product of its
    quantity and unit price.  The coerced copy keeps the equality
    whenever the line total at creation is a number and not NaN, which
    is the case whenever quantity and unit price are both finite. *)
Theorem line_total_consistent (entries : list xml_file) (tipo_doc : string)
    (r' : item) :
  In r' (df (processar_diretorio_xml (Listing entries) tipo_doc)) ->
  exists f itens r,
    In f entries /\
    parse_xml_base f tipo_doc = Ret itens /\
    In r itens /\
    r' = coerce r /\
    valor_total_item r = fmul (quantidade r) (valor_unitario r) /\
    (is_finite (quantidade r) && is_finite (valor_unitario r) = true ->
     is_nan (valor_total_item r) = false) /\
    (is_nan (valor_total_item r) = false ->
     valor_total_item r' = fmul (quantidade r') (valor_unitario r') /\
     feqb (valor_total_item r') (fmul (quantidade r') (valor_unitario r'))
     = true).
Proof.
  intros Hin.
  destruct (processar_diretorio_xml_value entries tipo_doc) as (Hdf & _).
  cbv zeta in Hdf. rewrite Hdf in Hin. clear Hdf.
  apply in_map_iff in Hin. destruct Hin as (r & <- & Hin).
  apply in_flat_map in Hin. destruct Hin as (f & Hf & Hr).
  apply filter_In in Hf. destruct Hf as [Hf _].
  exists f, (contribution tipo_doc f), r.
  pose proof (contribution_value tipo_doc f) as Hp.
  destruct (parse_xml_base_emits _ _ _ _ Hp Hr)
    as (root & det & pe & _ & _ & _ & Hitem & _).
  assert (Htot : valor_total_item r = fmul (quantidade r) (valor_unitario r))
    by (rewrite Hitem; reflexivity).
  repeat (split; [assumption || reflexivity|]).
  split.
  - intros Hfin. apply andb_prop in Hfin. destruct Hfin as [Hq Hu].
    rewrite Htot. now apply fmul_finite.
  - intros Hnum. simpl.
    pose proof Hnum as Hnum'. rewrite Htot in Hnum'.
    apply fmul_nan in Hnum'. destruct Hnum' as [Hq Hu].
    rewrite !fillna_number by assumption.
    split; [exact Htot|].
    rewrite <- Htot. revert Hnum. clear.
    unfold feqb, SFeqb.
    destruct (valor_total_item r) as [s|s| |s m e]; simpl; try discriminate;
      intros _; try (destruct s; reflexivity).
    destruct s; rewrite Z.compare_refl, Pos.compare_cont_refl; reflexivity.
Qed.

Lemma line_total_consistent_witness :
  In (coerce item_C)
     (df (processar_diretorio_xml (Listing [file_B; file_C]) "Venda")) /\
  exists f itens r,
    In f [file_B; file_C] /\
    parse_xml_base f "Venda" = Ret itens /\
    In r itens /\
    coerce item_C = coerce r /\
    valor_total_item r = fmul (quantidade r) (valor_unitario r) /\
    (is_finite (quantidade r) && is_finite (valor_unitario r) = true ->
     is_nan (valor_total_item r) = false) /\
    (is_nan (valor_total_item r) = false ->
     valor_total_item (coerce item_C) =
       fmul (quantidade (coerce item_C)) (valor_unitario (coerce item_C)) /\
     feqb (valor_total_item (coerce item_C))
       (fmul (quantidade (coerce item_C)) (valor_unitario (coerce item_C)))
     = true).
Proof.
  assert (H : In (coerce item_C)
                (df (processar_diretorio_xml (Listing [file_B; file_C])
                       "Venda")))
    by (vm_compute; left; reflexivity).
  split; [exact H|].
  exact (line_total_consistent [file_B; file_C] "Venda" (coerce item_C) H).
Defined.

(** ** The sign of a converted text *)

Lemma digits_val_nonneg ds : (0 <= digits_val ds)%Z.
Proof.
  unfold digits_val.
  assert (H : forall acc, (0 <= acc)%Z ->
            (0 <= fold_left (fun a c => 10 * a + digit_val c) ds acc)%Z).
  { induction ds as [|c ds IH]; intros acc Hacc; cbn [fold_left];
      [exact Hacc|].
    apply IH. unfold digit_val. lia. }
  apply H. lia.
Qed.

Lemma decimal_to_float_signed m e10 :
  (0 <= m)%Z -> signed false (decimal_to_float m e10) = true.
Proof.
  intros Hm. unfold decimal_to_float.
  destruct m as [|q|q]; [reflexivity| |lia].
  destruct (0 <=? e10)%Z eqn:He.
  - unfold binary_normalize.
    pose proof (Z.pow_nonneg 10 e10 ltac:(lia)) as Hpow.
    destruct (Z.pos q * 10 ^ e10)%Z eqn:Hprod;
      [reflexivity | apply binary_round_signed | lia].
  - unfold SFdiv_core_binary.
    set (sh := (0 - 0 - _)%Z).
    set (m' := match sh with Z0 => _ | Zpos _ => _ | Zneg _ => _ end).
    assert (Hm' : (0 <= m')%Z).
    { subst m'. destruct sh; try lia. apply Z.shiftl_nonneg. lia. }
    assert (Hd : (0 < 10 ^ (- e10))%Z)
      by (apply Z.pow_pos_nonneg; lia).
    pose proof (Z.div_pos m' (10 ^ (- e10)) Hm' Hd) as Hq.
    unfold Z.div in Hq.
    destruct (Z.div_eucl m' (10 ^ (- e10))) as [qz rz]. simpl in Hq.
    now apply binary_round_aux_signed.
Qed.

Lemma read_unsigned_signed l y :
  read_unsigned l = Some y -> y = S754_nan \/ signed false y = true.
Proof.
  unfold read_unsigned.
  destruct (_ || _); [intros [= <-]; now right|].
  destruct (_ =? "nan"); [intros [= <-]; now left|].
  destruct (read_digits l) as [ip l1].
  destruct (match l1 with "."%char :: l1' => read_digits l1' | _ => ([], l1) end)
    as [fp l2].
  destruct (ip ++ fp)%list as [|d ds]; [discriminate|].
  destruct (read_exponent l2) as [ex l3].
  destruct l3; [|discriminate].
  intros [= <-]. right. apply decimal_to_float_signed, digits_val_nonneg.
Qed.

Lemma lstrip_snoc l c :
  is_space c = false -> exists l', lstrip (l ++ [c]) = (l' ++ [c])%list.
Proof.
  intros Hc. induction l as [|a l IH]; simpl.
  - rewrite Hc. now exists [].
  - destruct (is_space a); [exact IH | now exists (a :: l)].
Qed.

Lemma lstrip_head l c t : lstrip l = c :: t -> is_space c = false.
Proof.
  induction l as [|a l IH]; simpl; [discriminate|].
  destruct (is_space a) eqn:Ha; [exact IH|].
  now intros [= <- _].
Qed.

Lemma strip_head l :
  match lstrip l with
  | [] => strip l = []
  | c :: _ => exists rest, strip l = c :: rest
  end.
Proof.
  unfold strip. destruct (lstrip l) as [|c t] eqn:H; [reflexivity|].
  simpl rev.
  destruct (lstrip_snoc (rev t) c (lstrip_head _ _ _ H)) as [l' ->].
  rewrite rev_app_distr. simpl. eauto.
Qed.

Lemma drop_underscores_head c rest l :
  drop_underscores None (c :: rest) = Some l -> exists l1, l = c :: l1.
Proof.
  simpl. destruct (Ascii.eqb c "_"); [discriminate|].
  destruct (drop_underscores (Some c) rest) as [l1|]; simpl; [|discriminate].
  intros [= <-]. eauto.
Qed.

Lemma read_sign_plain c l :
  Ascii.eqb c "-" = false -> fst (read_sign (c :: l)) = false.
Proof.
  destruct c as [[] [] [] [] [] [] [] []]; simpl; congruence.
Qed.

(** A text that does not begin with a minus sign denotes NaN or a number
    that is not negative. *)
Lemma py_float_sign s x :
  py_float s = Ret x -> leading_minus s = false ->
  is_nan x = true \/ nonneg x = true.
Proof.
  unfold py_float, leading_minus. intros H Hminus.
  pose proof (strip_head (to_ascii s)) as Hs.
  destruct (drop_underscores None (strip (to_ascii s)))
    as [l|] eqn:Hl; [|discriminate].
  assert (Hneg : fst (read_sign l) = false).
  { destruct (lstrip (to_ascii s)) as [|c t].
    - rewrite Hs in Hl. simpl in Hl. now injection Hl as <-.
    - destruct Hs as [rest Hs]. rewrite Hs in Hl.
      destruct (drop_underscores_head _ _ _ Hl) as [l1 ->].
      now apply read_sign_plain. }
  destruct (read_sign l) as [neg l']. simpl in Hneg. subst neg.
  destruct (read_unsigned l') as [y|] eqn:Hy; [|discriminate].
  injection H as <-.
  destruct (read_unsigned_signed _ _ Hy) as [-> | Hsg];
    [now left | right; now apply signed_nonneg].
Qed.

Lemma number_of_sign text :
  nonneg (number_of text) = true \/
  is_nan (number_of text) = true \/
  minus_text text = true.
Proof.
  destruct text as [s|]; simpl; [|now left].
  destruct (s =? ""); [now left|].
  destruct (py_float s) as [x|e] eqn:Hx; [|now left].
  destruct (leading_minus s) eqn:Hm; [now right; right|].
  destruct (py_float_sign s x Hx Hm); auto.
Qed.

(** ** C4: the sign of quantity and unit price *)

(** C4, the claim as stated fails: the quantity text ["-5"] gives the
    record a negative quantity, and a negative line total. *)
Lemma negative_quantity_emitted :
  exists r,
    parse_xml_base file_minus "Venda" = Ret [r] /\
    nonneg (quantidade r) = false /\
    SFltb (quantidade r) fzero = true /\
    SFltb (valor_total_item r) fzero = true.
Proof.
  eexists. split; [vm_compute; reflexivity|].
  repeat split.
Qed.

(** C4, as amended.  For every record the extractor emits, quantity and
    unit price are the floats denoted by the texts of the fields [qCom]
    and [vUnCom] of its product element, and 0.0 where the text is
    missing, empty or not a number.  Each of them is greater than or
    equal to 0.0, infinity included, unless its text denotes NaN or
    begins with a minus sign. *)
Theorem quantity_and_price_sign (f : xml_file) (tipo_doc : string)
    (itens : list item) (r : item) :
  parse_xml_base f tipo_doc = Ret itens ->
  In r itens ->
  exists root det prod_element,
    parsed f = Ret root /\
    In det (dets_of root) /\
    prod_of det = Some prod_element /\
    quantidade r = number_of (prod_value prod_element "qCom") /\
    valor_unitario r = number_of (prod_value prod_element "vUnCom") /\
    (nonneg (quantidade r) = true \/
     is_nan (quantidade r) = true \/
     minus_text (prod_value prod_element "qCom") = true) /\
    (nonneg (valor_unitario r) = true \/
     is_nan (valor_unitario r) = true \/
     minus_text (prod_value prod_element "vUnCom") = true).
Proof.
  intros Hp Hin.
  destruct (parse_xml_base_emits _ _ _ _ Hp Hin)
    as (root & det & pe & Hroot & Hdet & Hprod & -> & _).
  exists root, det, pe. cbn [quantidade valor_unitario item_of].
  repeat (split; [assumption || reflexivity|]).
  split; apply number_of_sign.
Qed.

Lemma quantity_and_price_sign_witness :
  exists root det prod_element,
    parsed file_C = Ret root /\
    In det (dets_of root) /\
    prod_of det = Some prod_element /\
    quantidade item_C = number_of (prod_value prod_element "qCom") /\
    valor_unitario item_C = number_of (prod_value prod_element "vUnCom") /\
    (nonneg (quantidade item_C) = true \/
     is_nan (quantidade item_C) = true \/
     minus_text (prod_value prod_element "qCom") = true) /\
    (nonneg (valor_unitario item_C) = true \/
     is_nan (valor_unitario item_C) = true \/
     minus_text (prod_value prod_element "vUnCom") = true).
Proof.
  apply (quantity_and_price_sign file_C "Venda" [item_C] item_C).
  - vm_compute. reflexivity.
  - left. reflexivity.
Defined.

(** ** C3: the namespace fallback *)

Lemma element_ind (P : element -> Prop) :
  (forall t x cs, Forall P cs -> P (Element t x cs)) ->
  forall e, P e.
Proof.
  intros H.
  exact (fix IH (e : element) : P e :=
           match e with
           | Element t x cs =>
               H t x cs
                 ((fix go (l : list element) : Forall P l :=
                     match l with
                     | [] => Forall_nil P
                     | c :: l' => Forall_cons c (IH c) (go l')
                     end) cs)
           end).
Qed.

Lemma every_here P e : every P e = true -> P e = true.
Proof.
  destruct e as [t x cs]. simpl. intros H.
  now apply andb_prop in H.
Qed.

Lemma every_children P e c :
  every P e = true -> In c (children e) -> every P c = true.
Proof.
  destruct e as [t x cs]. simpl. intros H Hc.
  apply andb_prop in H. destruct H as [_ H].
  rewrite forallb_forall in H. now apply H.
Qed.

Lemma every_descendants P e : forall d,
  every P e = true -> In d (iterdescendants e) -> every P d = true.
Proof.
  induction e as [t x cs IH] using element_ind. intros d H Hd.
  simpl in Hd. apply in_flat_map in Hd. destruct Hd as (c & Hc & Hd).
  pose proof (every_children P _ c H Hc) as Hpc.
  destruct Hd as [<- | Hd]; [exact Hpc|].
  rewrite Forall_forall in IH. now apply (IH c Hc).
Qed.

Lemma in_nfe_tag e : every in_nfe e = true -> q_ns (tag e) = Some nfe.
Proof.
  intros H. apply every_here in H. unfold in_nfe in H. simpl in H.
  destruct (q_ns (tag e)) as [u|]; [|discriminate].
  simpl in H. apply String.eqb_eq in H. now subst u.
Qed.

Lemma strip_ns_text e : text (strip_ns e) = text e.
Proof. now destruct e. Qed.

Lemma strip_ns_children e : children (strip_ns e) = map strip_ns (children e).
Proof. now destruct e. Qed.

Lemma strip_ns_descendants e :
  iterdescendants (strip_ns e) = map strip_ns (iterdescendants e).
Proof.
  induction e as [t x cs IH] using element_ind. simpl.
  induction cs as [|c cs IHcs]; simpl; [reflexivity|].
  inversion IH as [|? ? Hc Hcs]; subst.
  rewrite map_app, Hc, (IHcs Hcs). reflexivity.
Qed.

(** How a name tests against an element of the namespace and against
    its stripped copy. *)
Lemma qname_eqb_strip e name :
  q_ns (tag e) = Some nfe ->
  qname_eqb (tag (strip_ns e)) (bare_tag name) = qname_eqb (tag e) (ns_tag name).
Proof.
  destruct e as [[u n] x cs]. simpl. intros ->.
  unfold qname_eqb. simpl. rewrite ?String.eqb_refl. reflexivity.
Qed.

Lemma qname_eqb_strip_ns e name :
  qname_eqb (tag (strip_ns e)) (ns_tag name) = false.
Proof. now destruct e as [[u n] x cs]. Qed.

Lemma qname_eqb_bare e name :
  q_ns (tag e) = Some nfe -> qname_eqb (tag e) (bare_tag name) = false.
Proof.
  destruct e as [[u n] x cs]. simpl. now intros ->.
Qed.

Section Qualified.
Variable l : list element.
Hypothesis Hl : forall c, In c l -> every in_nfe c = true.

Lemma tagged_strip name :
  tagged (bare_tag name) (map strip_ns l) = map strip_ns (tagged (ns_tag name) l).
Proof.
  unfold tagged. induction l as [|c l' IH]; simpl; [reflexivity|].
  rewrite (qname_eqb_strip c name) by (apply in_nfe_tag, Hl; now left).
  rewrite IH by (intros; apply Hl; now right).
  now destruct (qname_eqb (tag c) (ns_tag name)).
Qed.

Lemma tagged_strip_ns name : tagged (ns_tag name) (map strip_ns l) = [].
Proof.
  clear Hl. unfold tagged. induction l as [|c l' IH]; simpl; [reflexivity|].
  now rewrite qname_eqb_strip_ns.
Qed.

Lemma tagged_bare name : tagged (bare_tag name) l = [].
Proof.
  unfold tagged. induction l as [|c l' IH]; simpl; [reflexivity|].
  rewrite (qname_eqb_bare c name) by (apply in_nfe_tag, Hl; now left).
  apply IH. intros; apply Hl; now right.
Qed.

Lemma first_tagged_hd t l0 : first_tagged t l0 = hd_error (tagged t l0).
Proof. unfold first_tagged, tagged. now rewrite hd_error_filter. Qed.

Lemma first_tagged_strip name :
  first_tagged (bare_tag name) (map strip_ns l)
  = option_map strip_ns (first_tagged (ns_tag name) l).
Proof.
  rewrite !first_tagged_hd, tagged_strip.
  now destruct (tagged (ns_tag name) l).
Qed.

Lemma first_tagged_strip_ns name :
  first_tagged (ns_tag name) (map strip_ns l) = None.
Proof. now rewrite first_tagged_hd, tagged_strip_ns. Qed.

Lemma first_tagged_bare name : first_tagged (bare_tag name) l = None.
Proof. now rewrite first_tagged_hd, tagged_bare. Qed.

Lemma first_tagged_in t c : first_tagged t l = Some c -> In c l.
Proof.
  unfold first_tagged. intros H. now apply find_some in H.
Qed.
End Qualified.

Lemma text_of_strip o : text_of (option_map strip_ns o) = text_of o.
Proof. destruct o as [e|]; [apply strip_ns_text | reflexivity]. Qed.

Lemma children_nfe e c :
  all_nfe e = true -> In c (children e) -> every in_nfe c = true.
Proof. apply every_children. Qed.

Lemma descendants_nfe e d :
  all_nfe e = true -> In d (iterdescendants e) -> every in_nfe d = true.
Proof. apply every_descendants. Qed.

Lemma dh_emi_of_strip root :
  all_nfe root = true -> dh_emi_of (strip_ns root) = dh_emi_of root.
Proof.
  intros H. unfold dh_emi_of.
  rewrite strip_ns_descendants.
  rewrite first_tagged_strip_ns.
  rewrite first_tagged_strip by (intros; now apply (descendants_nfe root)).
  rewrite (first_tagged_bare (iterdescendants root))
    by (intros; now apply (descendants_nfe root)).
  destruct (first_tagged (ns_tag "ide") (iterdescendants root)) as [ide|] eqn:E;
    [|reflexivity].
  simpl. rewrite strip_ns_children.
  assert (Hide : all_nfe ide = true).
  { apply (descendants_nfe root); [exact H|].
    now apply (first_tagged_in _ _ _ E). }
  rewrite first_tagged_strip by (intros; now apply (children_nfe ide)).
  apply text_of_strip.
Qed.

Lemma dets_of_strip root :
  all_nfe root = true -> dets_of (strip_ns root) = map strip_ns (dets_of root).
Proof.
  intros H. unfold dets_of.
  rewrite strip_ns_descendants, tagged_strip_ns.
  rewrite tagged_strip by (intros; now apply (descendants_nfe root)).
  rewrite (tagged_bare (iterdescendants root))
    by (intros; now apply (descendants_nfe root)).
  now destruct (tagged (ns_tag "det") (iterdescendants root)).
Qed.

Lemma dets_of_nfe root det :
  all_nfe root = true -> In det (dets_of root) -> all_nfe det = true.
Proof.
  intros H Hin. apply (descendants_nfe root); [exact H|].
  unfold dets_of in Hin.
  rewrite (tagged_bare (iterdescendants root)) in Hin
    by (intros; now apply (descendants_nfe root)).
  assert (Hin' : In det (tagged (ns_tag "det") (iterdescendants root)))
    by (destruct (tagged (ns_tag "det") (iterdescendants root));
        [contradiction | exact Hin]).
  unfold tagged in Hin'. now apply filter_In in Hin'.
Qed.

Lemma prod_of_strip det :
  all_nfe det = true -> prod_of (strip_ns det) = option_map strip_ns (prod_of det).
Proof.
  intros H. unfold prod_of.
  rewrite strip_ns_children, first_tagged_strip_ns.
  rewrite first_tagged_strip by (intros; now apply (children_nfe det)).
  rewrite (first_tagged_bare (children det))
    by (intros; now apply (children_nfe det)).
  now destruct (first_tagged (ns_tag "prod") (children det)).
Qed.

Lemma prod_of_nfe det p :
  all_nfe det = true -> prod_of det = Some p -> all_nfe p = true.
Proof.
  intros H Hp. unfold prod_of in Hp.
  rewrite (first_tagged_bare (children det)) in Hp
    by (intros; now apply (children_nfe det)).
  destruct (first_tagged (ns_tag "prod") (children det)) as [q|] eqn:E;
    [|discriminate].
  injection Hp as <-. apply (children_nfe det); [exact H|].
  now apply (first_tagged_in _ _ _ E).
Qed.

(** In a product of the namespace the second lookup finds nothing; in its
    stripped copy the first lookup finds nothing. *)
Lemma prod_value_strip p name :
  all_nfe p = true ->
  prod_value (strip_ns p) name
  = text_of (first_tagged (ns_tag name) (children p)) /\
  prod_value p name = null_if_blank (prod_value (strip_ns p) name).
Proof.
  intros H. unfold prod_value.
  rewrite strip_ns_children, first_tagged_strip_ns.
  rewrite first_tagged_strip by (intros; now apply (children_nfe p)).
  rewrite (first_tagged_bare (children p))
    by (intros; now apply (children_nfe p)).
  simpl. rewrite text_of_strip. split; reflexivity.
Qed.

Lemma number_of_null_if_blank v : number_of (null_if_blank v) = number_of v.
Proof.
  destruct v as [s|]; [|reflexivity].
  unfold null_if_blank, truthy.
  destruct (String.eqb_spec s "") as [-> | _]; reflexivity.
Qed.

Lemma truthy_null_if_blank v : truthy (null_if_blank v) = truthy v.
Proof.
  unfold null_if_blank. destruct (truthy v) eqn:E; [exact E | reflexivity].
Qed.

Lemma item_of_strip arquivo tipo_doc dh_emi p :
  all_nfe p = true ->
  item_of arquivo tipo_doc dh_emi p
  = blank_to_null (item_of arquivo tipo_doc dh_emi (strip_ns p)).
Proof.
  intros H. unfold item_of, blank_to_null. cbn -[prod_value number_of fmul].
  rewrite !(proj2 (prod_value_strip p _ H)), !number_of_null_if_blank.
  reflexivity.
Qed.

Lemma retained_blank_to_null r : retained (blank_to_null r) = retained r.
Proof.
  unfold retained. simpl. now rewrite !truthy_null_if_blank.
Qed.

Lemma line_of_strip arquivo tipo_doc dh_emi det :
  all_nfe det = true ->
  line_of arquivo tipo_doc dh_emi det
  = map blank_to_null (line_of arquivo tipo_doc dh_emi (strip_ns det)).
Proof.
  intros H. unfold line_of. rewrite (prod_of_strip det H).
  destruct (prod_of det) as [p|] eqn:E; [|reflexivity]. simpl.
  rewrite (item_of_strip _ _ _ p (prod_of_nfe det p H E)).
  rewrite retained_blank_to_null.
  now destruct (retained (item_of arquivo tipo_doc dh_emi (strip_ns p))).
Qed.

Lemma records_of_strip arquivo tipo_doc root :
  all_nfe root = true ->
  records_of arquivo tipo_doc root
  = map blank_to_null (records_of arquivo tipo_doc (strip_ns root)).
Proof.
  intros H. unfold records_of.
  rewrite (dh_emi_of_strip root H), (dets_of_strip root H).
  pose proof (dets_of_nfe root) as Hd.
  induction (dets_of root) as [|det dets IH]; simpl; [reflexivity|].
  rewrite map_app, <- IH by (intros; apply Hd; auto; now right).
  rewrite <- line_of_strip by (apply Hd; auto; now left).
  reflexivity.
Qed.

Lemma null_if_blank_text c :
  text_not_blank c = true -> null_if_blank (text c) = text c.
Proof.
  unfold text_not_blank, null_if_blank, truthy.
  destruct (text c) as [s|]; [|reflexivity]. simpl.
  now destruct (s =? "").
Qed.

Lemma text_not_blank_here c : no_blank_text c = true -> text_not_blank c = true.
Proof.
  intros H. apply every_here in H. exact H.
Qed.

Lemma prod_value_same p name :
  all_nfe p = true -> no_blank_text p = true ->
  prod_value p name = prod_value (strip_ns p) name.
Proof.
  intros H Hb.
  destruct (prod_value_strip p name H) as [Hs ->]. rewrite Hs.
  destruct (first_tagged (ns_tag name) (children p)) as [c|] eqn:E;
    [|reflexivity].
  simpl. apply null_if_blank_text, text_not_blank_here.
  apply (every_children _ p); [exact Hb|].
  now apply (first_tagged_in _ _ _ E).
Qed.

Lemma item_of_same arquivo tipo_doc dh_emi p :
  all_nfe p = true -> no_blank_text p = true ->
  item_of arquivo tipo_doc dh_emi p
  = item_of arquivo tipo_doc dh_emi (strip_ns p).
Proof.
  intros H Hb. unfold item_of.
  now rewrite !(prod_value_same p _ H Hb).
Qed.

Lemma prod_of_in det p : prod_of det = Some p -> In p (children det).
Proof.
  unfold prod_of.
  destruct (first_tagged (ns_tag "prod") (children det)) as [q|] eqn:E.
  - intros [= <-]. now apply (first_tagged_in _ _ _ E).
  - intros E'. now apply (first_tagged_in _ _ _ E').
Qed.

Lemma dets_of_in root det : In det (dets_of root) -> In det (iterdescendants root).
Proof.
  unfold dets_of, tagged.
  destruct (filter _ (iterdescendants root)) as [|d l] eqn:E.
  - intros H. now apply filter_In in H.
  - intros H. rewrite <- E in H. now apply filter_In in H.
Qed.

Lemma line_of_same arquivo tipo_doc dh_emi det :
  all_nfe det = true -> no_blank_text det = true ->
  line_of arquivo tipo_doc dh_emi det
  = line_of arquivo tipo_doc dh_emi (strip_ns det).
Proof.
  intros H Hb. unfold line_of. rewrite (prod_of_strip det H).
  destruct (prod_of det) as [p|] eqn:E; [|reflexivity]. simpl.
  rewrite (item_of_same _ _ _ p (prod_of_nfe det p H E)); [reflexivity|].
  apply (every_children _ det); [exact Hb | now apply prod_of_in].
Qed.

Lemma records_of_same arquivo tipo_doc root :
  all_nfe root = true -> no_blank_text root = true ->
  records_of arquivo tipo_doc root
  = records_of arquivo tipo_doc (strip_ns root).
Proof.
  intros H Hb. unfold records_of.
  rewrite (dh_emi_of_strip root H), (dets_of_strip root H).
  assert (Hd : forall det, In det (dets_of root) ->
                 all_nfe det = true /\ no_blank_text det = true).
  { intros det Hin. split; [now apply (dets_of_nfe root)|].
    apply (every_descendants _ root); [exact Hb | now apply dets_of_in]. }
  induction (dets_of root) as [|det dets IH]; simpl; [reflexivity|].
  rewrite <- IH by (intros; apply Hd; now right).
  destruct (Hd det (or_introl eq_refl)) as [H1 H2].
  now rewrite <- line_of_same.
Qed.

(** C3, the claim as stated fails: a product whose code element holds an
    empty text gets a null product code from the document in the fiscal
    namespace and an empty product code from its stripped copy. *)
Lemma blank_field_breaks_equivalence :
  all_nfe doc_blank_code = true /\
  exists r1 r2,
    parse_xml_base (file_of "a.xml" doc_blank_code) "Venda" = Ret [r1] /\
    parse_xml_base (file_of "a.xml" (strip_ns doc_blank_code)) "Venda"
    = Ret [r2] /\
    codigo_produto r1 = None /\
    codigo_produto r2 = Some "" /\
    parse_xml_base (file_of "a.xml" doc_blank_code) "Venda"
    <> parse_xml_base (file_of "a.xml" (strip_ns doc_blank_code)) "Venda".
Proof.
  split; [reflexivity|].
  do 2 eexists.
  split; [vm_compute; reflexivity|].
  split; [vm_compute; reflexivity|].
  split; [reflexivity|]. split; [reflexivity|].
  vm_compute. discriminate.
Qed.

(** C3, as amended.  For a document whose elements all carry the fiscal
    namespace, the extractor returns for the document what it returns
    for the stripped copy once every empty string in the five text
    fields of the product is replaced by null: same records in the same
    order, same time stamp, quantities, prices and totals.  When no
    element of the document has an empty text, the two outputs are
    equal. *)
Theorem fallback_equivalence (name tipo_doc : string) (root : element) :
  all_nfe root = true ->
  exists stripped,
    parse_xml_base (file_of name (strip_ns root)) tipo_doc = Ret stripped /\
    parse_xml_base (file_of name root) tipo_doc
    = Ret (map blank_to_null stripped) /\
    (no_blank_text root = true ->
     parse_xml_base (file_of name root) tipo_doc
     = parse_xml_base (file_of name (strip_ns root)) tipo_doc).
Proof.
  intros H. exists (records_of name tipo_doc (strip_ns root)).
  rewrite !parse_xml_base_value. simpl.
  split; [reflexivity|]. split.
  - now rewrite <- records_of_strip.
  - intros Hb. now rewrite <- records_of_same.
Qed.

Lemma fallback_equivalence_witness :
  all_nfe doc_abc = true /\
  exists stripped,
    parse_xml_base (file_of "a.xml" (strip_ns doc_abc)) "Venda"
    = Ret stripped /\
    parse_xml_base (file_of "a.xml" doc_abc) "Venda"
    = Ret (map blank_to_null stripped) /\
    (no_blank_text doc_abc = true ->
     parse_xml_base (file_of "a.xml" doc_abc) "Venda"
     = parse_xml_base (file_of "a.xml" (strip_ns doc_abc)) "Venda").
Proof.
  split; [reflexivity|].
  apply (fallback_equivalence "a.xml" "Venda" doc_abc).
  reflexivity.
Defined.

(** ** Sorting *)

Section SortFacts.
Context {A : Type} (before : A -> A -> bool).

Let R (a b : A) : Prop := before a b = true.

Lemma insert_in x l a : In a (insert before x l) <-> a = x \/ In a l.
Proof.
  induction l as [|y l IH]; simpl.
  - intuition.
  - destruct (before x y); simpl; [intuition|].
    rewrite IH. intuition.
Qed.

Lemma sort_in l a : In a (sort before l) <-> In a l.
Proof.
  induction l as [|x l IH]; simpl; [reflexivity|].
  rewrite insert_in, IH. intuition.
Qed.

Hypothesis before_total : forall a b, before a b = false -> before b a = true.

Lemma insert_hdrel a x l :
  R a x -> HdRel R a l -> HdRel R a (insert before x l).
Proof.
  intros Hax H. destruct l as [|y l]; simpl.
  - now constructor.
  - destruct (before x y); constructor; [exact Hax|].
    now inversion H.
Qed.

Lemma insert_sorted x l : Sorted R l -> Sorted R (insert before x l).
Proof.
  induction l as [|y l IH]; intros H; simpl.
  - repeat constructor.
  - destruct (before x y) eqn:E.
    + constructor; [exact H|]. now constructor.
    + inversion H as [|? ? Hs Hh]; subst.
      constructor; [now apply IH|].
      apply insert_hdrel; [|exact Hh].
      now apply before_total.
Qed.

Lemma sort_sorted l : Sorted R (sort before l).
Proof.
  induction l as [|x l IH]; simpl; [constructor|].
  now apply insert_sorted.
Qed.

(** Between neighbours of the sorted list. *)
Lemma sorted_neighbours l i a b :
  Sorted R l -> nth_error l i = Some a -> nth_error l (S i) = Some b ->
  before a b = true.
Proof.
  intros H. revert i. induction H as [|x l Hs IH Hh]; intros i Ha Hb.
  - destruct i; discriminate.
  - destruct i as [|i]; simpl in *.
    + injection Ha as <-. destruct l as [|y l]; [discriminate|].
      injection Hb as <-. now inversion Hh.
    + now apply (IH i).
Qed.

Hypothesis before_trans : forall a b c,
  before a b = true -> before b c = true -> before a c = true.

(** The head of the sorted list is before every entry. *)
Lemma sort_head_least l v rest :
  sort before l = v :: rest -> forall w, In w l -> before v w = true.
Proof.
  intros E w Hw.
  assert (Hs : StronglySorted R (v :: rest)).
  { rewrite <- E. apply Sorted_StronglySorted; [|apply sort_sorted].
    intros a b c. apply before_trans. }
  apply (sort_in l) in Hw. rewrite E in Hw.
  destruct Hw as [<- | Hw].
  - destruct (before v v) eqn:Ev; [reflexivity|].
    pose proof (before_total _ _ Ev). congruence.
  - apply StronglySorted_inv in Hs. destruct Hs as [_ Hall].
    rewrite Forall_forall in Hall. now apply Hall.
Qed.
End SortFacts.

(** ** The order of strings *)

Lemma string_compare_trans : forall s1 s2 s3,
  String.compare s1 s2 <> Gt -> String.compare s2 s3 <> Gt ->
  String.compare s1 s3 <> Gt.
Proof.
  induction s1 as [|c1 s1 IH]; intros [|c2 s2] [|c3 s3]; simpl;
    try congruence.
  unfold Ascii.compare.
  destruct (N.compare_spec (N_of_ascii c1) (N_of_ascii c2));
    destruct (N.compare_spec (N_of_ascii c2) (N_of_ascii c3));
    destruct (N.compare_spec (N_of_ascii c1) (N_of_ascii c3));
    try lia; try congruence.
  apply IH.
Qed.

Lemma string_leb_trans s1 s2 s3 :
  String.leb s1 s2 = true -> String.leb s2 s3 = true -> String.leb s1 s3 = true.
Proof.
  unfold String.leb. intros H1 H2.
  pose proof (string_compare_trans s1 s2 s3) as H.
  destruct (String.compare s1 s2), (String.compare s2 s3);
    try discriminate; destruct (String.compare s1 s3); try reflexivity;
    exfalso; apply H; congruence.
Qed.

Lemma string_leb_total s1 s2 :
  String.leb s1 s2 = false -> String.leb s2 s1 = true.
Proof.
  intros H. destruct (String.leb_total s1 s2) as [H' | H']; congruence.
Qed.

(** ** C1: the dominant category *)

Lemma count_le_max (l0 l : list string) w :
  In w l ->
  count w l0 <= fold_right (fun v m => Nat.max (count v l0) m) 0 l.
Proof.
  induction l as [|a l IH]; simpl; [contradiction|].
  intros [-> | H]; [lia|]. specialize (IH H). lia.
Qed.

Lemma max_attained (l0 l : list string) :
  l <> [] ->
  exists v, In v l /\
    count v l0 = fold_right (fun v m => Nat.max (count v l0) m) 0 l.
Proof.
  induction l as [|a l IH]; [congruence|]. intros _. simpl.
  destruct l as [|b l].
  - exists a. simpl. split; [now left | lia].
  - destruct (IH ltac:(discriminate)) as (v & Hv & Hc).
    destruct (Nat.max_spec (count a l0)
                (fold_right (fun v m => Nat.max (count v l0) m) 0 (b :: l)))
      as [[_ ->] | [_ ->]].
    + exists v. split; [now right | exact Hc].
    + exists a. split; [now left | reflexivity].
Qed.

Lemma mode_in x v :
  In v (mode x) <->
  In v (dropna x) /\ count v (dropna x) = max_count (dropna x).
Proof.
  unfold mode. rewrite sort_in, nodup_In, filter_In, Nat.eqb_eq.
  reflexivity.
Qed.

Lemma cfop_agg_spec x :
  match cfop_agg x with
  | None => dropna x = []
  | Some v =>
      In v (dropna x) /\
      (forall w, In w (dropna x) -> count w (dropna x) <= count v (dropna x)) /\
      (forall w, In w (dropna x) ->
         count w (dropna x) = count v (dropna x) -> String.leb v w = true)
  end.
Proof.
  unfold cfop_agg. destruct (mode x) as [|v rest] eqn:E.
  - destruct (dropna x) as [|a l] eqn:Hx; [reflexivity|]. exfalso.
    destruct (max_attained (a :: l) (a :: l) ltac:(discriminate))
      as (v & Hv & Hc).
    assert (H : In v (mode x)) by (apply mode_in; rewrite Hx; auto).
    rewrite E in H. exact H.
  - assert (Hv : In v (mode x)) by (rewrite E; now left).
    apply mode_in in Hv. destruct Hv as [Hv Hc].
    split; [exact Hv|]. split.
    + intros w Hw. rewrite Hc. now apply count_le_max.
    + intros w Hw Hcw.
      unfold mode in E.
      apply (sort_head_least String.leb string_leb_total string_leb_trans
               _ _ _ E).
      apply nodup_In, filter_In. split; [exact Hw|].
      apply Nat.eqb_eq. congruence.
Qed.

Lemma criar_resumo_produto_rows df tipo row :
  In row (criar_resumo_produto df tipo) ->
  exists k, row = agg k (group_of df k).
Proof.
  unfold criar_resumo_produto, group_of.
  destruct df as [|r0 df0]; [contradiction|].
  set (df := r0 :: df0). clearbody df.
  destruct (filter has_codigo df) as [|c0 cl] eqn:E; [contradiction|].
  unfold sort_values. rewrite sort_in. unfold groupby_agg.
  rewrite in_map_iff. intros (k & <- & _). now exists k.
Qed.

(** C1, the claim as stated fails: product P1 has one line of category
    5405 followed by one line of category 5102; the two codes are tied,
    the first met is 5405, and the summary row carries 5102. *)
Lemma tie_not_first_encountered :
  let frame := df (processar_diretorio_xml (Listing [file_tie]) "Venda") in
  exists row,
    criar_resumo_produto frame "vendida" = [row] /\
    map CFOP (group_of frame (r_codigo_produto row))
    = [Some "5405"; Some "5102"] /\
    first_encountered_mode (map CFOP (group_of frame (r_codigo_produto row)))
    = Some "5405" /\
    CFOP_predominante row = Some "5102".
Proof.
  eexists. split; [vm_compute; reflexivity|].
  repeat split.
Qed.

(** C1, as amended.  For every row of the summary, the dominant category
    is null when no record of the product has a category, and otherwise
    a category of highest frequency among the records of the product;
    among several categories of that frequency it is the least one in
    the order of strings. *)
Theorem dominant_category (df : list item) (tipo : string) (row : resumo) :
  In row (criar_resumo_produto df tipo) ->
  let cats := dropna (map CFOP (group_of df (r_codigo_produto row))) in
  match CFOP_predominante row with
  | None => cats = []
  | Some v =>
      In v cats /\
      (forall w, In w cats -> count w cats <= count v cats) /\
      (forall w, In w cats -> count w cats = count v cats ->
         String.leb v w = true)
  end.
Proof.
  intros Hin. destruct (criar_resumo_produto_rows _ _ _ Hin) as [k ->].
  cbn [r_codigo_produto CFOP_predominante agg].
  apply cfop_agg_spec.
Qed.

Lemma dominant_category_witness :
  let row := agg "P1" (group_of frame_tie "P1") in
  let cats := dropna (map CFOP (group_of frame_tie (r_codigo_produto row))) in
  In row (criar_resumo_produto frame_tie "vendida") /\
  match CFOP_predominante row with
  | None => cats = []
  | Some v =>
      In v cats /\
      (forall w, In w cats -> count w cats <= count v cats) /\
      (forall w, In w cats -> count w cats = count v cats ->
         String.leb v w = true)
  end.
Proof.
  intros row cats.
  assert (H : In row (criar_resumo_produto frame_tie "vendida"))
    by (vm_compute; left; reflexivity).
  split; [exact H|].
  exact (dominant_category frame_tie "vendida" row H).
Defined.

(** ** C7: the order of the summary *)

Lemma SFleb_total x y :
  is_nan x = false -> is_nan y = false ->
  SFleb x y = false -> SFleb y x = true.
Proof.
  unfold SFleb, SFcompare.
  destruct x as [sx|sx| |sx mx ex], y as [sy|sy| |sy my ey];
    simpl; try discriminate; intros _ _;
    try (destruct sx; discriminate || reflexivity);
    try (destruct sy; discriminate || reflexivity);
    try (destruct sx, sy; discriminate || reflexivity).
  rewrite (Z.compare_antisym ex ey), (Pos.compare_cont_spec my mx),
    (Pos.compare_cont_spec mx my), (Pos.compare_antisym mx my).
  simpl.
  destruct sx, sy; try discriminate; try reflexivity;
    destruct (ex ?= ey)%Z; simpl; try discriminate; try reflexivity;
    destruct (mx ?= my)%positive; simpl; try discriminate; reflexivity.
Qed.

Lemma before_desc_total a b :
  before_desc a b = false -> before_desc b a = true.
Proof.
  unfold before_desc.
  destruct (is_nan (qtd_total b)) eqn:Hb; [discriminate|].
  destruct (is_nan (qtd_total a)) eqn:Ha; [reflexivity|].
  now apply SFleb_total.
Qed.

(** C7, the claim as stated fails: infinite quantities of opposite sign
    sum to NaN; the row of that product is placed last, after a row of
    total 1.0, and NaN is not less than or equal to 1.0. *)
Lemma nan_total_breaks_order :
  exists a b,
    criar_resumo_produto frame_opposite "vendida" = [a; b] /\
    qtd_total a = one /\
    qtd_total b = S754_nan /\
    SFleb (qtd_total b) (qtd_total a) = false.
Proof.
  do 2 eexists. split; [vm_compute; reflexivity|].
  repeat split.
Qed.

(** C7, as amended.  In the summary, each row is followed either by a
    row whose total quantity is NaN or, when its own total is not NaN,
    by a row of smaller or equal total: the totals that are numbers are
    non-increasing and the rows of NaN total come last. *)
Theorem totals_descending (df : list item) (tipo : string) (i : nat)
    (a b : resumo) :
  nth_error (criar_resumo_produto df tipo) i = Some a ->
  nth_error (criar_resumo_produto df tipo) (S i) = Some b ->
  is_nan (qtd_total b) = true \/
  (is_nan (qtd_total a) = false /\
   is_nan (qtd_total b) = false /\
   SFleb (qtd_total b) (qtd_total a) = true).
Proof.
  intros Ha Hb.
  assert (Hs : Sorted (fun x y => before_desc x y = true)
                 (criar_resumo_produto df tipo)).
  { unfold criar_resumo_produto.
    destruct df as [|r0 df0]; [constructor|].
    destruct (filter has_codigo (r0 :: df0)); [constructor|].
    apply sort_sorted, before_desc_total. }
  pose proof (sorted_neighbours before_desc _ i a b Hs Ha Hb) as H.
  unfold before_desc in H.
  destruct (is_nan (qtd_total b)); [now left|].
  destruct (is_nan (qtd_total a)); [discriminate|].
  right. auto.
Qed.

Lemma totals_descending_witness :
  exists a b,
    nth_error (criar_resumo_produto (df batch_ABC) "vendida") 0 = Some a /\
    nth_error (criar_resumo_produto (df batch_ABC) "vendida") 1 = Some b /\
    qtd_total a = eight /\ qtd_total b = one /\
    (is_nan (qtd_total b) = true \/
     (is_nan (qtd_total a) = false /\
      is_nan (qtd_total b) = false /\
      SFleb (qtd_total b) (qtd_total a) = true)).
Proof.
  do 2 eexists.
  split; [vm_compute; reflexivity|].
  split; [vm_compute; reflexivity|].
  split; [reflexivity|]. split; [reflexivity|].
  exact (totals_descending (df batch_ABC) "vendida" 0 _ _ eq_refl eq_refl).
Defined.

(** The scenario of three documents: two of three files contribute, and
    the summary lists P1 (total quantity 8, total value 80) before P2
    (total quantity 1, total value 100). *)
Lemma scenario_three_documents :
  total_files batch_ABC = 3 /\
  processed_count batch_ABC = 2 /\
  map (fun row => (r_codigo_produto row, qtd_total row, valor_total row))
    (criar_resumo_produto (df batch_ABC) "vendida")
  = [("P1", eight, eighty); ("P2", one, hundred)].
Proof.
  split; [reflexivity|]. split; [reflexivity|].
  vm_compute. reflexivity.
Qed.

(** * Further properties of the code *)

(** ** The extractor *)

(** X1.  Every record a file yields carries the name of the file and the
    document class given by the caller, and all records of one file carry
    the same time stamp. *)
Theorem records_provenance (f : xml_file) (tipo_doc : string)
    (itens : list item) (r1 r2 : item) :
  parse_xml_base f tipo_doc = Ret itens ->
  In r1 itens -> In r2 itens ->
  arquivo_origem r1 = basename f /\
  tipo_documento r1 = tipo_doc /\
  data_hora_emissao r1 = data_hora_emissao r2.
Proof.
  intros Hp H1 H2.
  destruct (parse_xml_base_emits _ _ _ _ Hp H1)
    as (root & _ & p1 & Hroot & _ & _ & -> & _).
  destruct (parse_xml_base_emits _ _ _ _ Hp H2)
    as (root' & _ & p2 & Hroot' & _ & _ & -> & _).
  rewrite Hroot in Hroot'. injection Hroot' as <-.
  repeat split.
Qed.

Lemma records_provenance_witness :
  exists r1 r2,
    parse_xml_base file_A "Venda" = Ret [r1; r2] /\
    arquivo_origem r1 = "A.xml" /\
    tipo_documento r1 = "Venda" /\
    data_hora_emissao r1 = data_hora_emissao r2.
Proof.
  do 2 eexists. split; [vm_compute; reflexivity|].
  exact (records_provenance file_A "Venda" _ _ _ eq_refl
           (or_introl eq_refl) (or_intror (or_introl eq_refl))).
Defined.

Lemma line_of_length arquivo tipo_doc dh_emi det :
  List.length (line_of arquivo tipo_doc dh_emi det)
  = if identified det then 1 else 0.
Proof.
  unfold line_of, identified, retained.
  destruct (prod_of det) as [p|]; [|reflexivity].
  cbn [codigo_produto nome_produto item_of].
  now destruct (truthy (prod_value p "cProd") || truthy (prod_value p "xProd")).
Qed.

Lemma records_of_length arquivo tipo_doc root :
  List.length (records_of arquivo tipo_doc root)
  = List.length (filter identified (dets_of root)).
Proof.
  unfold records_of.
  induction (dets_of root) as [|det dets IH]; [reflexivity|].
  cbn [flat_map filter]. rewrite length_app, line_of_length, IH.
  now destruct (identified det).
Qed.

(** X3.  Item elements are taken under the fiscal namespace if the
    document has any: in a document that mixes both forms, every record
    comes from an item element of the namespace and the unqualified item
    elements yield nothing. *)
Theorem qualified_items_shadow_unqualified (f : xml_file)
    (tipo_doc : string) (root : element) (itens : list item) (r : item) :
  parsed f = Ret root ->
  parse_xml_base f tipo_doc = Ret itens ->
  tagged (ns_tag "det") (iterdescendants root) <> [] ->
  In r itens ->
  List.length itens
    <= List.length (tagged (ns_tag "det") (iterdescendants root)) /\
  exists det p,
    In det (iterdescendants root) /\
    tag det = ns_tag "det" /\
    prod_of det = Some p /\
    r = item_of (basename f) tipo_doc (dh_emi_of root) p.
Proof.
  intros Hroot Hp Hns Hin.
  assert (Hd : dets_of root = tagged (ns_tag "det") (iterdescendants root)).
  { unfold dets_of.
    destruct (tagged (ns_tag "det") (iterdescendants root)); congruence. }
  split.
  - rewrite <- Hd. pose proof Hp as Hlen.
    rewrite parse_xml_base_value, Hroot in Hlen. injection Hlen as <-.
    rewrite records_of_length. apply filter_length_le.
  - destruct (parse_xml_base_emits _ _ _ _ Hp Hin)
      as (root' & det & p & Hroot' & Hdet & Hprod & Hr & _).
    rewrite Hroot in Hroot'. injection Hroot' as <-.
    exists det, p. rewrite Hd in Hdet. unfold tagged in Hdet.
    apply filter_In in Hdet. destruct Hdet as [Hdet Htag].
    repeat split; auto.
    unfold qname_eqb in Htag. apply andb_prop in Htag.
    destruct Htag as [Hu Hn]. destruct (tag det) as [u n]. simpl in *.
    apply String.eqb_eq in Hn. subst n.
    destruct u as [u|]; [|discriminate].
    simpl in Hu. apply String.eqb_eq in Hu. now subst u.
Qed.

Lemma qualified_items_shadow_unqualified_witness :
  exists r,
    parse_xml_base (file_of "m.xml" doc_mixed_items) "Venda" = Ret [r] /\
    List.length (tagged (bare_tag "det") (iterdescendants doc_mixed_items))
    = 2 /\
    codigo_produto r = Some "P1" /\
    List.length [r]
      <= List.length (tagged (ns_tag "det") (iterdescendants doc_mixed_items)) /\
    exists det p,
      In det (iterdescendants doc_mixed_items) /\
      tag det = ns_tag "det" /\
      prod_of det = Some p /\
      r = item_of "m.xml" "Venda" (dh_emi_of doc_mixed_items) p.
Proof.
  eexists. split; [vm_compute; reflexivity|].
  split; [reflexivity|]. split; [reflexivity|].
  apply (qualified_items_shadow_unqualified
           (file_of "m.xml" doc_mixed_items) "Venda" doc_mixed_items).
  - reflexivity.
  - vm_compute. reflexivity.
  - vm_compute. discriminate.
  - left. reflexivity.
Defined.

(** ** The batch *)

Lemma batch_value (diretorio : directory) (tipo_doc : string) :
  let files := files_of diretorio in
  let b := processar_diretorio_xml diretorio tipo_doc in
  df b = map coerce (flat_map (contribution tipo_doc) files) /\
  total_files b = List.length files /\
  processed_count b =
    List.length (filter (fun f => nonempty (contribution tipo_doc f)) files) /\
  error_files b = [].
Proof.
  destruct diretorio as [|e|entries]; try (simpl; auto; fail).
  exact (processar_diretorio_xml_value entries tipo_doc).
Qed.

Lemma contributing_le_records {A B : Type} (c : A -> list B) (l : list A) :
  List.length (filter (fun a => nonempty (c a)) l)
  <= List.length (flat_map c l).
Proof.
  induction l as [|a l IH]; simpl; [lia|].
  rewrite length_app. destruct (c a); simpl; lia.
Qed.

(** X4.  In every batch the number of files that contributed is at most
    the number of files found, and at most the number of rows of the
    frame: each contributing file gives at least one row. *)
Theorem processed_count_bounds (diretorio : directory) (tipo_doc : string) :
  let b := processar_diretorio_xml diretorio tipo_doc in
  processed_count b <= total_files b /\
  processed_count b <= List.length (df b).
Proof.
  intros b. destruct (batch_value diretorio tipo_doc) as (Hd & Ht & Hc & _).
  cbv zeta in *. fold b in Hd, Ht, Hc. rewrite Hd, Ht, Hc, length_map.
  split; [apply filter_length_le | apply contributing_le_records].
Qed.

Lemma contribution_provenance tipo_doc f r :
  In r (contribution tipo_doc f) ->
  arquivo_origem r = basename f /\ tipo_documento r = tipo_doc.
Proof.
  intros Hin.
  destruct (parse_xml_base_emits _ _ _ _ (contribution_value tipo_doc f) Hin)
    as (root & _ & p & _ & _ & _ & -> & _).
  split; reflexivity.
Qed.

(** X5.  Every row of the frame of a batch comes from a file of the
    listing whose name ends in [.xml], in any letter case: the row carries
    that file's name and the document class of the batch. *)
Theorem rows_come_from_listed_files (entries : list xml_file)
    (tipo_doc : string) (r : item) :
  In r (df (processar_diretorio_xml (Listing entries) tipo_doc)) ->
  exists f,
    In f entries /\
    ends_with_xml (basename f) = true /\
    arquivo_origem r = basename f /\
    tipo_documento r = tipo_doc.
Proof.
  intros Hin.
  destruct (processar_diretorio_xml_value entries tipo_doc) as (Hdf & _).
  cbv zeta in Hdf. rewrite Hdf in Hin. clear Hdf.
  apply in_map_iff in Hin. destruct Hin as (r0 & <- & Hin).
  apply in_flat_map in Hin. destruct Hin as (f & Hf & Hr).
  apply filter_In in Hf. destruct Hf as [Hf Hx].
  exists f. simpl.
  destruct (contribution_provenance _ _ _ Hr). auto.
Qed.

Lemma rows_come_from_listed_files_witness :
  In (coerce item_C) (df batch_ABC) /\
  exists f,
    In f [file_A; file_B; file_C] /\
    ends_with_xml (basename f) = true /\
    arquivo_origem (coerce item_C) = basename f /\
    tipo_documento (coerce item_C) = "Venda".
Proof.
  assert (H : In (coerce item_C) (df batch_ABC))
    by (vm_compute; right; right; left; reflexivity).
  split; [exact H|].
  exact (rows_come_from_listed_files [file_A; file_B; file_C] "Venda"
           (coerce item_C) H).
Defined.

Lemma fillna_not_nan x : is_nan (fillna x) = false.
Proof. unfold fillna. destruct (is_nan x) eqn:E; [reflexivity | exact E]. Qed.

(** X6.  After the numeric coercion no row of the frame holds NaN as
    quantity, unit price or line total, whatever the texts were. *)
Theorem frame_has_no_nan (diretorio : directory) (tipo_doc : string)
    (r : item) :
  In r (df (processar_diretorio_xml diretorio tipo_doc)) ->
  is_nan (quantidade r) = false /\
  is_nan (valor_unitario r) = false /\
  is_nan (valor_total_item r) = false.
Proof.
  intros Hin.
  destruct (batch_value diretorio tipo_doc) as (Hdf & _).
  cbv zeta in Hdf. rewrite Hdf in Hin. clear Hdf.
  apply in_map_iff in Hin. destruct Hin as (r0 & <- & _).
  simpl. repeat split; apply fillna_not_nan.
Qed.

Lemma frame_has_no_nan_witness :
  exists r,
    parse_xml_base (file_of "nan.xml"
                      (nfe_doc ide_block
                         [det_line "P1" "Parafuso" "5102" "nan" "5.0"]))
      "Venda" = Ret [r] /\
    quantidade r = S754_nan /\
    In (coerce r)
       (df (processar_diretorio_xml
              (Listing [file_of "nan.xml"
                          (nfe_doc ide_block
                             [det_line "P1" "Parafuso" "5102" "nan" "5.0"])])
              "Venda")) /\
    is_nan (quantidade (coerce r)) = false /\
    is_nan (valor_unitario (coerce r)) = false /\
    is_nan (valor_total_item (coerce r)) = false.
Proof.
  eexists. split; [vm_compute; reflexivity|].
  split; [reflexivity|].
  match goal with
  | |- ?H /\ _ =>
      assert (Hin : H) by (vm_compute; left; reflexivity);
      split; [exact Hin|];
      exact (frame_has_no_nan _ _ _ Hin)
  end.
Defined.

Lemma flat_map_nil_iff {A B : Type} (c : A -> list B) (l : list A) :
  flat_map c l = [] <-> filter (fun a => nonempty (c a)) l = [].
Proof.
  induction l as [|a l IH]; simpl; [tauto|].
  destruct (c a) as [|b bs]; simpl; [exact IH|].
  split; discriminate.
Qed.

(** X7.  The frame of a batch is empty exactly when no file contributed:
    the counter of contributing files is 0 if and only if the frame has
    no row. *)
Theorem empty_frame_iff_nothing_processed (diretorio : directory)
    (tipo_doc : string) :
  let b := processar_diretorio_xml diretorio tipo_doc in
  df b = [] <-> processed_count b = 0.
Proof.
  intros b. destruct (batch_value diretorio tipo_doc) as (Hd & _ & Hc & _).
  cbv zeta in *. fold b in Hd, Hc. rewrite Hd, Hc.
  rewrite length_zero_iff_nil, <- flat_map_nil_iff.
  split; [apply map_eq_nil | now intros ->].
Qed.

(** X9.  An entry of the directory whose name does not end in [.xml] has
    no effect on the batch, wherever it stands in the listing and whatever
    it holds. *)
Theorem other_entries_ignored (entries1 entries2 : list xml_file)
    (f : xml_file) (tipo_doc : string) :
  ends_with_xml (basename f) = false ->
  processar_diretorio_xml (Listing (entries1 ++ f :: entries2)) tipo_doc
  = processar_diretorio_xml (Listing (entries1 ++ entries2)) tipo_doc.
Proof.
  intros H. unfold processar_diretorio_xml.
  rewrite !filter_app. simpl. now rewrite H.
Qed.

Lemma other_entries_ignored_witness :
  ends_with_xml (basename file_notes) = false /\
  processar_diretorio_xml (Listing ([file_A] ++ file_notes :: [file_C])) "Venda"
  = processar_diretorio_xml (Listing ([file_A] ++ [file_C])) "Venda".
Proof.
  split; [reflexivity|].
  apply (other_entries_ignored [file_A] [file_C] file_notes "Venda").
  reflexivity.
Defined.

(** ** The summary *)

Section SortPermutation.
Context {A : Type} (before : A -> A -> bool).

Lemma insert_perm x l : Permutation (insert before x l) (x :: l).
Proof.
  induction l as [|y l IH]; simpl; [reflexivity|].
  destruct (before x y); [reflexivity|].
  rewrite IH. apply perm_swap.
Qed.

Lemma sort_perm l : Permutation (sort before l) l.
Proof.
  induction l as [|x l IH]; simpl; [reflexivity|].
  rewrite insert_perm. now constructor.
Qed.
End SortPermutation.

Lemma dropna_in {A : Type} (x : list (option A)) a :
  In a (dropna x) <-> In (Some a) x.
Proof.
  unfold dropna. rewrite in_flat_map. split.
  - intros (o & Ho & Ha). destruct o as [b|]; [|contradiction].
    destruct Ha as [<- | []]. exact Ho.
  - intros H. exists (Some a). split; [exact H | now left].
Qed.

Lemma dropna_cons {A : Type} (o : option A) (x : list (option A)) :
  dropna (o :: x)
  = match o with Some a => a :: dropna x | None => dropna x end.
Proof. now destruct o. Qed.

Lemma dropna_length {A : Type} (x : list (option A)) :
  List.length (dropna x) <= List.length x.
Proof.
  induction x as [|o x IH]; simpl; [lia|].
  rewrite length_app. destruct o; simpl; lia.
Qed.

Lemma groupby_agg_codes df_clean :
  map r_codigo_produto (groupby_agg df_clean)
  = sort String.leb (nodup string_dec (dropna (map codigo_produto df_clean))).
Proof.
  unfold groupby_agg. rewrite map_map. simpl. apply map_id.
Qed.

Lemma criar_resumo_produto_perm df tipo :
  Permutation (map r_codigo_produto (criar_resumo_produto df tipo))
    (nodup string_dec (dropna (map codigo_produto df))).
Proof.
  assert (Hclean : dropna (map codigo_produto (filter has_codigo df))
                   = dropna (map codigo_produto df)).
  { induction df as [|r df IH]; [reflexivity|].
    cbn [filter]. unfold has_codigo at 1.
    destruct (codigo_produto r) as [k|] eqn:Ek; cbn [map];
      rewrite ?Ek, !dropna_cons, IH; reflexivity. }
  unfold criar_resumo_produto.
  destruct df as [|r0 df0]; [reflexivity|].
  set (df := r0 :: df0) in *. clearbody df.
  destruct (filter has_codigo df) as [|c cl] eqn:E.
  - rewrite <- Hclean. reflexivity.
  - rewrite <- Hclean. unfold sort_values.
    rewrite (Permutation_map r_codigo_produto (sort_perm before_desc _)).
    rewrite groupby_agg_codes. apply sort_perm.
Qed.

Lemma criar_resumo_produto_code_iff df tipo k :
  In k (map r_codigo_produto (criar_resumo_produto df tipo)) <->
  exists r, In r df /\ codigo_produto r = Some k.
Proof.
  pose proof (criar_resumo_produto_perm df tipo) as Hperm.
  assert (Hk : In k (nodup string_dec (dropna (map codigo_produto df))) <->
               exists r, In r df /\ codigo_produto r = Some k).
  { rewrite nodup_In, dropna_in, in_map_iff.
    split; intros (r & H1 & H2); exists r; auto. }
  rewrite <- Hk.
  split; [apply (Permutation_in _ Hperm)|].
  apply (Permutation_in _ (Permutation_sym Hperm)).
Qed.

(** X10.  The summary has exactly one row for each product code that
    occurs in the frame: no code appears on two rows, a code is on a row
    if and only if some record carries it, and there are never more rows
    than records. *)
Theorem one_row_per_product_code (df : list item) (tipo : string) :
  let rows := criar_resumo_produto df tipo in
  NoDup (map r_codigo_produto rows) /\
  (forall k, In k (map r_codigo_produto rows) <->
             exists r, In r df /\ codigo_produto r = Some k) /\
  List.length rows <= List.length df.
Proof.
  intros rows. pose proof (criar_resumo_produto_perm df tipo) as Hperm.
  fold rows in Hperm. split; [|split].
  - apply (Permutation_NoDup (Permutation_sym Hperm)), NoDup_nodup.
  - intros k. apply criar_resumo_produto_code_iff.
  - rewrite <- (length_map r_codigo_produto), (Permutation_length Hperm).
    transitivity (List.length (dropna (map codigo_produto df))).
    + apply NoDup_incl_length; [apply NoDup_nodup|].
      intros k Hk. now apply nodup_In in Hk.
    + rewrite <- (length_map codigo_produto df). apply dropna_length.
Qed.

Lemma filter_idem {A : Type} (f : A -> bool) (l : list A) :
  filter f (filter f l) = filter f l.
Proof.
  induction l as [|a l IH]; simpl; [reflexivity|].
  destruct (f a) eqn:E; simpl; rewrite ?E, IH; reflexivity.
Qed.

(** X11.  The summary is empty exactly when no record of the frame has a
    product code; an empty frame is one such case. *)
Theorem empty_summary_iff_no_code (df : list item) (tipo : string) :
  criar_resumo_produto df tipo = [] <->
  forall r, In r df -> codigo_produto r = None.
Proof.
  split.
  - intros H r Hr. destruct (codigo_produto r) as [k|] eqn:Ek; [|reflexivity].
    assert (Hk : In k (map r_codigo_produto (criar_resumo_produto df tipo)))
      by (apply criar_resumo_produto_code_iff; eauto).
    rewrite H in Hk. contradiction.
  - intros H. unfold criar_resumo_produto.
    destruct df as [|r0 df0]; [reflexivity|].
    destruct (filter has_codigo (r0 :: df0)) as [|c cl] eqn:E; [reflexivity|].
    assert (Hc : In c (filter has_codigo (r0 :: df0)))
      by (rewrite E; now left).
    apply filter_In in Hc. destruct Hc as [Hc Hk].
    unfold has_codigo in Hk. rewrite (H c Hc) in Hk. discriminate.
Qed.

(** X12.  Records without product code do not enter the summary at all:
    the summary of a frame is the summary of its records that have a
    code. *)
Theorem summary_ignores_null_codes (df : list item) (tipo : string) :
  criar_resumo_produto df tipo
  = criar_resumo_produto (filter has_codigo df) tipo.
Proof.
  unfold criar_resumo_produto. rewrite filter_idem.
  destruct df as [|r0 df0]; [reflexivity|].
  now destruct (filter has_codigo (r0 :: df0)).
Qed.

Lemma first_of_group (fld : item -> option string) (g : list item) :
  match first (map fld g) with
  | None => forall r, In r g -> fld r = None
  | Some n =>
      exists g1 r g2,
        g = (g1 ++ r :: g2)%list /\
        fld r = Some n /\
        forall r', In r' g1 -> fld r' = None
  end.
Proof.
  unfold first. induction g as [|a g IH]; [intros r []|].
  cbn [map]. rewrite dropna_cons.
  destruct (fld a) as [n|] eqn:Ea.
  - simpl. exists [], a, g. repeat split; auto. intros r' [].
  - destruct (hd_error (dropna (map fld g))) as [n|].
    + destruct IH as (g1 & r & g2 & -> & Hr & Hg1).
      exists (a :: g1), r, g2. repeat split; auto.
      intros r' [<- | Hr']; auto.
    + intros r [<- | Hr]; auto.
Qed.

(** X13.  The name and the tariff code on a summary row are the first
    ones that are not null among the records of the product, in frame
    order: records before it have a null value, and the row has a null
    value only when every record of the product has. *)
Theorem first_seen_name_and_ncm (df : list item) (tipo : string)
    (row : resumo) :
  In row (criar_resumo_produto df tipo) ->
  let g := group_of df (r_codigo_produto row) in
  match r_nome_produto row with
  | None => forall r, In r g -> nome_produto r = None
  | Some n =>
      exists g1 r g2,
        g = (g1 ++ r :: g2)%list /\
        nome_produto r = Some n /\
        forall r', In r' g1 -> nome_produto r' = None
  end /\
  match r_NCM row with
  | None => forall r, In r g -> NCM r = None
  | Some n =>
      exists g1 r g2,
        g = (g1 ++ r :: g2)%list /\
        NCM r = Some n /\
        forall r', In r' g1 -> NCM r' = None
  end.
Proof.
  intros Hin. destruct (criar_resumo_produto_rows _ _ _ Hin) as [k ->].
  cbn [r_codigo_produto r_nome_produto r_NCM agg].
  split; apply first_of_group.
Qed.

(** X14.  A category that occurs strictly more often than every other
    one among the records of a product is the dominant category of its
    row. *)
Theorem strict_majority_category_wins (df : list item) (tipo : string)
    (row : resumo) (c : string) :
  In row (criar_resumo_produto df tipo) ->
  let cats := dropna (map CFOP (group_of df (r_codigo_produto row))) in
  In c cats ->
  (forall w, In w cats -> w <> c -> count w cats < count c cats) ->
  CFOP_predominante row = Some c.
Proof.
  intros Hin cats Hc Hstrict.
  destruct (criar_resumo_produto_rows _ _ _ Hin) as [k ->].
  cbn [r_codigo_produto CFOP_predominante agg] in *.
  pose proof (cfop_agg_spec (map CFOP (group_of df k))) as Hspec.
  fold cats in Hspec.
  destruct (cfop_agg (map CFOP (group_of df k))) as [v|].
  - destruct Hspec as (Hv & Hmax & _).
    destruct (string_dec v c) as [-> | Hne]; [reflexivity|].
    specialize (Hmax c Hc). specialize (Hstrict v Hv Hne). lia.
  - rewrite Hspec in Hc. contradiction.
Qed.

Lemma first_seen_name_and_ncm_witness :
  In row_names (criar_resumo_produto frame_names "vendida") /\
  r_nome_produto row_names = Some "Parafuso" /\
  (exists g1 r g2,
     group_of frame_names "P1" = (g1 ++ r :: g2)%list /\
     nome_produto r = Some "Parafuso" /\
     forall r', In r' g1 -> nome_produto r' = None) /\
  (forall r, In r (group_of frame_names "P1") -> NCM r = None).
Proof.
  assert (H : In row_names (criar_resumo_produto frame_names "vendida"))
    by (vm_compute; left; reflexivity).
  split; [exact H|]. split; [reflexivity|].
  exact (first_seen_name_and_ncm frame_names "vendida" row_names H).
Defined.

Lemma strict_majority_category_wins_witness :
  In row_names (criar_resumo_produto frame_names "vendida") /\
  dropna (map CFOP (group_of frame_names "P1")) = ["5102"; "5405"; "5405"] /\
  CFOP_predominante row_names = Some "5405".
Proof.
  assert (H : In row_names (criar_resumo_produto frame_names "vendida"))
    by (vm_compute; left; reflexivity).
  split; [exact H|]. split; [reflexivity|].
  apply (strict_majority_category_wins frame_names "vendida" row_names "5405" H).
  - vm_compute. right. left. reflexivity.
  - intros w Hw Hne.
    assert (Hw' : In w ["5102"; "5405"; "5405"]) by exact Hw.
    destruct Hw' as [<- | [<- | [<- | []]]];
      solve [vm_compute; lia | exfalso; apply Hne; reflexivity].
Defined.

(** ** The order of floats *)

Lemma SFleb_trans x y z :
  SFleb x y = true -> SFleb y z = true -> SFleb x z = true.
Proof.
  unfold SFleb, SFcompare.
  destruct x as [sx|sx| |sx mx ex], y as [sy|sy| |sy my ey],
    z as [sz|sz| |sz mz ez];
    try discriminate; try reflexivity;
    try (destruct sx; try discriminate; try reflexivity;
         destruct sy; try discriminate; try reflexivity;
         destruct sz; try discriminate; reflexivity);
    try (destruct sy; try discriminate; try reflexivity;
         destruct sz; try discriminate; try reflexivity;
         destruct sx; try discriminate; reflexivity);
    try (destruct sz; try discriminate; try reflexivity;
         destruct sx; try discriminate; try reflexivity;
         destruct sy; try discriminate; reflexivity).
  change (Pos.compare_cont Eq mx my) with (mx ?= my)%positive.
  change (Pos.compare_cont Eq my mz) with (my ?= mz)%positive.
  change (Pos.compare_cont Eq mx mz) with (mx ?= mz)%positive.
  destruct sx, sy, sz; try discriminate; try reflexivity;
    destruct (Z.compare_spec ex ey); try discriminate;
    destruct (Z.compare_spec ey ez); try discriminate;
    destruct (Z.compare_spec ex ez); try lia; try reflexivity;
    destruct (Pos.compare_spec mx my); try discriminate;
    destruct (Pos.compare_spec my mz); try discriminate;
    destruct (Pos.compare_spec mx mz); try lia; try reflexivity;
    simpl; intros; try discriminate; try reflexivity.
Qed.

Lemma SFleb_not_nan x y :
  SFleb x y = true -> is_nan x = false /\ is_nan y = false.
Proof.
  unfold SFleb, SFcompare. destruct x, y; simpl; auto; discriminate.
Qed.

Lemma before_desc_trans a b c :
  before_desc a b = true -> before_desc b c = true -> before_desc a c = true.
Proof.
  unfold before_desc.
  destruct (is_nan (qtd_total c)) eqn:Hc; [reflexivity|].
  destruct (is_nan (qtd_total b)) eqn:Hb; [discriminate|].
  destruct (is_nan (qtd_total a)) eqn:Ha; [discriminate|].
  intros H1 H2. exact (SFleb_trans _ _ _ H2 H1).
Qed.

(** ** The first twenty rows *)

Lemma criar_resumo_produto_sorted df tipo :
  StronglySorted (fun x y => before_desc x y = true)
    (criar_resumo_produto df tipo).
Proof.
  apply Sorted_StronglySorted.
  - intros a b c. apply before_desc_trans.
  - unfold criar_resumo_produto.
    destruct df as [|r0 df0]; [constructor|].
    destruct (filter has_codigo (r0 :: df0)); [constructor|].
    apply sort_sorted, before_desc_total.
Qed.

Lemma strongly_sorted_across {A : Type} (R : A -> A -> Prop) (l1 l2 : list A) :
  StronglySorted R (l1 ++ l2) ->
  forall a b, In a l1 -> In b l2 -> R a b.
Proof.
  induction l1 as [|x l1 IH]; intros H a b Ha Hb; [contradiction|].
  simpl in H. apply StronglySorted_inv in H. destruct H as [Hs Hall].
  destruct Ha as [<- | Ha].
  - rewrite Forall_forall in Hall. apply Hall, in_or_app. now right.
  - now apply IH.
Qed.

(** X15.  The table of the first twenty rows leaves out no product that
    outranks a listed one: every row in it stands before every row left
    out, so an omitted row has a total quantity that is NaN or not
    greater than the total of any listed row. *)
Theorem top_20_leads (df : list item) (tipo : string) (a b : resumo) :
  In a (top_20 (criar_resumo_produto df tipo)) ->
  In b (skipn 20 (criar_resumo_produto df tipo)) ->
  is_nan (qtd_total b) = true \/
  (is_nan (qtd_total a) = false /\
   is_nan (qtd_total b) = false /\
   SFleb (qtd_total b) (qtd_total a) = true).
Proof.
  intros Ha Hb.
  pose proof (criar_resumo_produto_sorted df tipo) as Hs.
  rewrite <- (firstn_skipn 20 (criar_resumo_produto df tipo)) in Hs.
  pose proof (strongly_sorted_across _ _ _ Hs a b Ha Hb) as H.
  unfold before_desc in H.
  destruct (is_nan (qtd_total b)); [now left|].
  destruct (is_nan (qtd_total a)); [discriminate|].
  right. auto.
Qed.

Lemma top_20_leads_witness :
  let rows := criar_resumo_produto frame_21 "vendida" in
  let a := agg "P02" (group_of frame_21 "P02") in
  let b := agg "P01" (group_of frame_21 "P01") in
  List.length rows = 21 /\
  In a (top_20 rows) /\
  In b (skipn 20 rows) /\
  (is_nan (qtd_total b) = true \/
   (is_nan (qtd_total a) = false /\
    is_nan (qtd_total b) = false /\
    SFleb (qtd_total b) (qtd_total a) = true)).
Proof.
  intros rows a b.
  assert (Ha : In a (top_20 rows))
    by (vm_compute; do 19 right; left; reflexivity).
  assert (Hb : In b (skipn 20 rows)) by (vm_compute; left; reflexivity).
  split; [vm_compute; reflexivity|].
  split; [exact Ha|]. split; [exact Hb|].
  exact (top_20_leads frame_21 "vendida" a b Ha Hb).
Defined.

(** ** The category counters *)

Lemma conta_cfop_igual_value code df :
  conta_cfop_igual code df = List.length (cfop_igual code df).
Proof.
  unfold conta_cfop_igual, processou, tem_coluna_CFOP.
  now destruct df.
Qed.

Lemma conta_cfop_isin_value codes df :
  conta_cfop_isin codes df = List.length (cfop_isin codes df).
Proof.
  unfold conta_cfop_isin, processou, tem_coluna_CFOP.
  now destruct df.
Qed.

Lemma filter_or_length {A : Type} (p q : A -> bool) (l : list A) :
  (forall a, p a && q a = false) ->
  List.length (filter (fun a => p a || q a) l)
  = List.length (filter p l) + List.length (filter q l).
Proof.
  intros H. induction l as [|a l IH]; simpl; [reflexivity|].
  specialize (H a).
  destruct (p a), (q a); simpl in *; try discriminate; rewrite IH; lia.
Qed.

Lemma isin_two (a b : string) (df : list item) :
  a <> b ->
  List.length (cfop_isin [a; b] df)
  = List.length (cfop_igual a df) + List.length (cfop_igual b df).
Proof.
  intros Hab. unfold cfop_isin, cfop_igual.
  rewrite <- filter_or_length.
  - f_equal. apply filter_ext. intros r.
    destruct (CFOP r) as [c|]; [|reflexivity].
    simpl. now rewrite orb_false_r.
  - intros r. destruct (CFOP r) as [c|]; [|reflexivity]. simpl.
    destruct (String.eqb_spec c a) as [-> | _]; [|reflexivity].
    destruct (String.eqb_spec a b); [contradiction | reflexivity].
Qed.

(** X16.  Each purchases counter over two category codes is the sum of
    the counts of its two codes: [isin] counts a record once, and a
    record without category is counted by neither. *)
Theorem purchase_counters_add (df_compras_detalhe : list item) :
  cfop_compras_1102_ou_2102 df_compras_detalhe
  = conta_cfop_igual "1102" df_compras_detalhe
    + conta_cfop_igual "2102" df_compras_detalhe /\
  cfop_compras_1403_ou_2403 df_compras_detalhe
  = conta_cfop_igual "1403" df_compras_detalhe
    + conta_cfop_igual "2403" df_compras_detalhe.
Proof.
  unfold cfop_compras_1102_ou_2102, cfop_compras_1403_ou_2403.
  rewrite !conta_cfop_isin_value, !conta_cfop_igual_value.
  split; apply isin_two; discriminate.
Qed.

Lemma disjoint_filters_length {A : Type} (p q : A -> bool) (l : list A) :
  (forall a, p a && q a = false) ->
  List.length (filter p l) + List.length (filter q l) <= List.length l.
Proof.
  intros H. induction l as [|a l IH]; simpl; [lia|].
  specialize (H a). destruct (p a), (q a); simpl in *; try discriminate; lia.
Qed.

(** X17.  The counters of one document class never count a line twice:
    the two sales counters together, and the two purchases counters
    together, stay within the number of lines shown for the class, and
    all are 0 for an empty frame. *)
Theorem counters_within_total (df_detalhe : list item) :
  cfop_vendas_5102 df_detalhe + cfop_vendas_5405 df_detalhe
    <= total_linhas df_detalhe /\
  cfop_compras_1102_ou_2102 df_detalhe + cfop_compras_1403_ou_2403 df_detalhe
    <= total_linhas df_detalhe /\
  total_linhas df_detalhe = List.length df_detalhe.
Proof.
  assert (Ht : total_linhas df_detalhe = List.length df_detalhe)
    by (unfold total_linhas, processou; now destruct df_detalhe).
  unfold cfop_vendas_5102, cfop_vendas_5405, cfop_compras_1102_ou_2102,
    cfop_compras_1403_ou_2403.
  rewrite !conta_cfop_isin_value, !conta_cfop_igual_value, Ht.
  split; [|split; [|reflexivity]].
  - apply disjoint_filters_length. intros r.
    destruct (CFOP r) as [c|]; [|reflexivity]. simpl.
    destruct (String.eqb_spec c "5102") as [-> | _]; reflexivity.
  - apply disjoint_filters_length. intros r.
    destruct (CFOP r) as [c|]; [|reflexivity]. simpl.
    destruct (String.eqb_spec c "1102") as [-> | _]; [reflexivity|].
    destruct (String.eqb_spec c "2102") as [-> | _]; reflexivity.
Qed.

(** ** From the listing to the summary *)

(** X18.  Every product of the summary of a batch traces back to a file
    of the listing: its code is the product code of a record that the
    extractor returns for a listed file whose name ends in [.xml]. *)
Theorem summary_traces_to_files (entries : list xml_file)
    (tipo_doc tipo : string) (row : resumo) :
  In row (criar_resumo_produto (detalhe (Listing entries) tipo_doc) tipo) ->
  exists f itens r,
    In f entries /\
    ends_with_xml (basename f) = true /\
    parse_xml_base f tipo_doc = Ret itens /\
    In r itens /\
    codigo_produto r = Some (r_codigo_produto row).
Proof.
  intros Hin.
  assert (Hk : In (r_codigo_produto row)
                 (map r_codigo_produto
                    (criar_resumo_produto (detalhe (Listing entries) tipo_doc)
                       tipo)))
    by (apply in_map; exact Hin).
  apply criar_resumo_produto_code_iff in Hk.
  destruct Hk as (r' & Hr' & Hcode).
  unfold detalhe in Hr'.
  destruct (processar_diretorio_xml_value entries tipo_doc) as (Hdf & _).
  cbv zeta in Hdf. rewrite Hdf in Hr'. clear Hdf.
  apply in_map_iff in Hr'. destruct Hr' as (r & <- & Hr).
  apply in_flat_map in Hr. destruct Hr as (f & Hf & Hr).
  apply filter_In in Hf. destruct Hf as [Hf Hx].
  exists f, (contribution tipo_doc f), r.
  repeat split; auto. apply contribution_value.
Qed.

Lemma summary_traces_to_files_witness :
  let row := agg "P2" (group_of (df batch_ABC) "P2") in
  In row
     (criar_resumo_produto
        (detalhe (Listing [file_A; file_B; file_C]) "Venda") "vendida") /\
  exists f itens r,
    In f [file_A; file_B; file_C] /\
    ends_with_xml (basename f) = true /\
    parse_xml_base f "Venda" = Ret itens /\
    In r itens /\
    codigo_produto r = Some (r_codigo_produto row).
Proof.
  intros row.
  assert (H : In row
                (criar_resumo_produto
                   (detalhe (Listing [file_A; file_B; file_C]) "Venda")
                   "vendida"))
    by (vm_compute; right; left; reflexivity).
  split; [exact H|].
  exact (summary_traces_to_files [file_A; file_B; file_C] "Venda" "vendida"
           row H).
Defined.

(** ** Texts outside ASCII *)

Example py_float_unicode :
  py_float (nbsp ++ "-5") = Ret (SFopp five) /\
  leading_minus (nbsp ++ "-5") = true /\
  py_float arabic_123 = py_float "123" /\
  py_float ("5" ++ nbsp ++ "x") = Raise ValueError.
Proof. repeat split; vm_compute; reflexivity. Qed.

(** A quantity text made of a no-break space and [-5] gives a negative
    quantity, and the text counts as beginning with a minus sign. *)
Lemma nbsp_minus_quantity :
  exists r,
    parse_xml_base file_nbsp_minus "Venda" = Ret [r] /\
    quantidade r = SFopp five /\
    minus_text (prod_value (prod_line "P1" "Parafuso" "5102" (nbsp ++ "-5") "2")
                  "qCom") = true.
Proof.
  eexists. split; [vm_compute; reflexivity|].
  split; vm_compute; reflexivity.
Qed.

(** ** Documents of one namespace *)

Lemma option_eqb_eq a b : option_eqb a b = true -> a = b.
Proof.
  destruct a as [x|], b as [y|]; simpl; try discriminate; auto.
  intros H. apply String.eqb_eq in H. now subst.
Qed.

Lemma option_eqb_refl a : option_eqb a a = true.
Proof. destruct a; simpl; [apply String.eqb_refl | reflexivity]. Qed.

Section OneNamespace.
Variable u : option string.
Hypothesis Hu : u = Some nfe \/ u = None.
Variable l : list element.
Hypothesis Hl : forall c, In c l -> in_namespace u c = true.

Lemma tagged_named name : tagged (QName u name) l = named name l.
Proof.
  unfold tagged, named. apply filter_ext_in. intros c Hc.
  unfold qname_eqb. cbn [q_ns q_local].
  specialize (Hl c Hc). unfold in_namespace in Hl. now rewrite Hl.
Qed.

Lemma tagged_other u' name : u' <> u -> tagged (QName u' name) l = [].
Proof.
  intros Hne. unfold tagged.
  induction l as [|c l' IH]; [reflexivity|]. cbn [filter].
  rewrite IH by (intros; apply Hl; now right).
  unfold qname_eqb. cbn [q_ns q_local].
  destruct (option_eqb (q_ns (tag c)) u') eqn:E; [|reflexivity].
  apply option_eqb_eq in E.
  pose proof (Hl c (or_introl eq_refl)) as Hc.
  apply option_eqb_eq in Hc. congruence.
Qed.

(** The two-step lookups of the program find what the local name
    finds. *)
Lemma two_step_tagged name :
  match tagged (ns_tag name) l with
  | [] => tagged (bare_tag name) l
  | found => found
  end = named name l.
Proof.
  unfold ns_tag, bare_tag. destruct Hu as [E | E].
  - rewrite (tagged_other None) by (rewrite E; discriminate).
    rewrite <- E, tagged_named. now destruct (named name l).
  - rewrite (tagged_other (Some nfe)) by (rewrite E; discriminate).
    rewrite <- E. apply tagged_named.
Qed.

Lemma two_step_first name :
  match first_tagged (ns_tag name) l with
  | Some p => Some p
  | None => first_tagged (bare_tag name) l
  end = hd_error (named name l).
Proof.
  rewrite !first_tagged_hd, <- two_step_tagged.
  destruct (tagged (ns_tag name) l); reflexivity.
Qed.

Lemma two_step_truthy name :
  truthy (let a := text_of (first_tagged (ns_tag name) l) in
          if truthy a then a
          else text_of (first_tagged (bare_tag name) l))
  = truthy (text_of (hd_error (named name l))).
Proof.
  rewrite <- two_step_first. cbv zeta.
  destruct (first_tagged (ns_tag name) l) as [p|] eqn:E; cbn [text_of].
  - rewrite !first_tagged_hd in *.
    assert (Hb : tagged (bare_tag name) l = []).
    { unfold ns_tag, bare_tag in *. destruct Hu as [Eu | Eu].
      - apply tagged_other. rewrite Eu. discriminate.
      - rewrite (tagged_other (Some nfe)) in E
          by (rewrite Eu; discriminate).
        discriminate. }
    rewrite Hb. cbn [hd_error text_of].
    destruct (truthy (text p)) eqn:Et; [exact Et | reflexivity].
  - reflexivity.
Qed.
End OneNamespace.

Lemma uniform_children u e c :
  uniform u e = true -> In c (children e) -> uniform u c = true.
Proof. apply every_children. Qed.

Lemma uniform_in_namespace u e : uniform u e = true -> in_namespace u e = true.
Proof. apply every_here. Qed.

Lemma identified_by_name u det :
  u = Some nfe \/ u = None ->
  uniform u det = true ->
  identified det = has_code_or_name det.
Proof.
  intros Hu Hdet. unfold identified, has_code_or_name, prod_of.
  assert (Hc : forall c, In c (children det) -> in_namespace u c = true)
    by (intros c Hc; now apply uniform_in_namespace, (uniform_children u det)).
  rewrite (two_step_first u Hu (children det) Hc "prod").
  destruct (hd_error (named "prod" (children det))) as [p|] eqn:Ep;
    [|reflexivity].
  assert (Hp : In p (children det)).
  { unfold named in Ep. rewrite hd_error_filter in Ep.
    now apply find_some in Ep. }
  assert (Hpc : forall c, In c (children p) -> in_namespace u c = true).
  { intros c Hcp. apply uniform_in_namespace, (uniform_children u p); auto.
    now apply (uniform_children u det). }
  unfold prod_value.
  now rewrite !(two_step_truthy u Hu (children p) Hpc).
Qed.

(** X2.  In a document whose elements are all in the fiscal namespace,
    or all without namespace, the extractor loses no item: it returns
    exactly one record for each item element, at any depth, that has a
    product child whose first code child or first name child holds a
    text that is not empty, the elements being taken by local name. *)
Theorem extraction_complete_one_namespace (u : option string)
    (f : xml_file) (tipo_doc : string) (root : element)
    (itens : list item) :
  u = Some nfe \/ u = None ->
  uniform u root = true ->
  parsed f = Ret root ->
  parse_xml_base f tipo_doc = Ret itens ->
  List.length itens
  = List.length (filter has_code_or_name (named "det" (iterdescendants root))).
Proof.
  intros Hu Hroot Hparsed.
  rewrite parse_xml_base_value, Hparsed. intros [= <-].
  rewrite records_of_length.
  assert (Hd : forall d, In d (iterdescendants root) -> uniform u d = true)
    by (intros d Hd; now apply (every_descendants _ root)).
  assert (Hdets : dets_of root = named "det" (iterdescendants root)).
  { unfold dets_of. apply (two_step_tagged u Hu).
    intros c Hc. now apply uniform_in_namespace, Hd. }
  rewrite Hdets. f_equal. apply filter_ext_in. intros det Hdet.
  apply (identified_by_name u); [exact Hu|].
  apply Hd. unfold named in Hdet. now apply filter_In in Hdet.
Qed.

Lemma extraction_complete_one_namespace_witness :
  let root := nfe_doc ide_block
                [det_line "P1" "Parafuso" "5102" "3" "10";
                 det_line "P1" "Parafuso" "5102" "5" "10"] in
  uniform (Some nfe) root = true /\
  exists itens,
    parse_xml_base file_A "Venda" = Ret itens /\
    List.length itens = 2 /\
    List.length itens
    = List.length
        (filter has_code_or_name (named "det" (iterdescendants root))).
Proof.
  intros root.
  split; [reflexivity|].
  eexists. split; [vm_compute; reflexivity|].
  split; [reflexivity|].
  apply (extraction_complete_one_namespace (Some nfe) file_A "Venda" root).
  - left. reflexivity.
  - reflexivity.
  - reflexivity.
  - vm_compute. reflexivity.
Defined.

(** Without the hypothesis the count fails: the mixed document has three
    such item elements and yields one record. *)
Lemma mixed_document_loses_items :
  List.length (filter has_code_or_name
                 (named "det" (iterdescendants doc_mixed_items))) = 3 /\
  exists r,
    parse_xml_base (file_of "m.xml" doc_mixed_items) "Venda" = Ret [r].
Proof.
  split; [reflexivity|].
  eexists. vm_compute. reflexivity.
Qed.
